(** * The tutor orchestration workflow, embedded in Rocq

    A shallow embedding of [orchestrator/app/workflow.py], together with
    the parts of [schemas.py], [database.py] and [main.py] that it uses.

    Conventions of the embedding.
    - A Python [str] is a [string] whose characters are the code points
      below 256; [str.lower], [str.strip], the regular-expression classes
      [\s] and [\d] are Python's on that range.
    - A Python [dict] with string keys is a [gmap string _]; equality of
      maps is equality of dictionaries (insertion order is irrelevant).
    - A JSON document is a [value]; its numbers are the integers.
    - A call that may raise returns a [result]; [try ... except Exception]
      is [try_except].
    - [int] on a string of digits is the interpreter's: it raises
      [ValueError] above 4300 digits, the default of
      [sys.set_int_max_str_digits].
    - The adaptation rules of the tool services ([api_servers]) are
      embedded as the pure functions they are; [int] on a string is a
      parameter of the two functions that call it.
    - The language model, the profile store and the HTTP client are
      collaborators of the workflow: they are variables of the sections
      below, and every theorem holds for all of their behaviours. *)

From stdpp Require Import gmap strings list fin_maps.
From Stdlib Require Import ZArith Ascii String.

Set Warnings "-register-all,-clear-no-such-hyp".

Local Open Scope Z_scope.
Local Open Scope string_scope.

(** ** Exceptions *)

(** The outcome of a call: a value, or an exception caught by
    [except Exception]; [e] is [str(e)]. *)
Inductive result (A : Type) : Type :=
  | Ok (a : A)
  | Raise (e : string).
Arguments Ok {A} a.
Arguments Raise {A} e.

Definition is_ok {A} (r : result A) : bool :=
  match r with Ok _ => true | Raise _ => false end.

(** ** Python strings *)

Module PyStr.

Definition code (c : ascii) : N := N_of_ascii c.

Definition between (lo hi : N) (c : ascii) : bool :=
  ((lo <=? code c) && (code c <=? hi))%N.

(** [str.isspace] on one character, which is also the class [\s]. *)
Definition is_space (c : ascii) : bool :=
  between 9 13 c || between 28 32 c || (code c =? 133)%N || (code c =? 160)%N.

(** The class [\d]: the only decimal digits below 256 are ['0'..'9']. *)
Definition is_digit (c : ascii) : bool := between 48 57 c.

Definition is_upper (c : ascii) : bool :=
  between 65 90 c || between 192 214 c || between 216 222 c.

Definition lower_char (c : ascii) : ascii :=
  if is_upper c then ascii_of_N (code c + 32) else c.

(** [s.lower()] *)
Fixpoint lower (s : string) : string :=
  match s with
  | EmptyString => EmptyString
  | String c s' => String (lower_char c) (lower s')
  end.

(** [s.startswith(p)] *)
Fixpoint startswith (p s : string) : bool :=
  match p, s with
  | EmptyString, _ => true
  | String a p', String b s' => Ascii.eqb a b && startswith p' s'
  | String _ _, EmptyString => false
  end.

(** [sub in s] *)
Fixpoint contains (sub s : string) : bool :=
  startswith sub s ||
  match s with
  | EmptyString => false
  | String _ s' => contains sub s'
  end.

(** [any(word in s for word in words)] *)
Definition any_in (words : list string) (s : string) : bool :=
  existsb (fun word => contains word s) words.

Fixpoint skip (cls : ascii -> bool) (s : string) : string :=
  match s with
  | String c s' => if cls c then skip cls s' else s
  | EmptyString => EmptyString
  end.

Fixpoint take (cls : ascii -> bool) (s : string) : string :=
  match s with
  | String c s' => if cls c then String c (take cls s') else EmptyString
  | EmptyString => EmptyString
  end.

(** [all(cls(c) for c in s)] *)
Fixpoint all (cls : ascii -> bool) (s : string) : bool :=
  match s with
  | EmptyString => true
  | String c s' => cls c && all cls s'
  end.

Fixpoint rev_acc (s acc : string) : string :=
  match s with
  | EmptyString => acc
  | String c s' => rev_acc s' (String c acc)
  end.

Definition rev (s : string) : string := rev_acc s EmptyString.

(** [s.strip()] *)
Definition strip (s : string) : string :=
  rev (skip is_space (rev (skip is_space s))).

(** [s[i:]] for [0 <= i] *)
Fixpoint drop (i : nat) (s : string) : string :=
  match i, s with
  | O, _ => s
  | S i', String _ s' => drop i' s'
  | S _, EmptyString => EmptyString
  end.

(** [s[:n]] for [0 <= n] *)
Fixpoint firstn (n : nat) (s : string) : string :=
  match n, s with
  | O, _ => EmptyString
  | S n', String c s' => String c (firstn n' s')
  | S _, EmptyString => EmptyString
  end.

(** [s[i:-j]] for [0 <= i] and [0 < j]: the characters from index [i] up to,
    not including, index [len(s) - j]; empty when the bounds cross. *)
Definition slice_to_end_minus (i j : nat) (s : string) : string :=
  firstn (String.length s - j - i) (drop i s).

(** [s.replace(a, b)] for one-character [a] and [b] *)
Fixpoint replace_char (a b : ascii) (s : string) : string :=
  match s with
  | EmptyString => EmptyString
  | String c s' => String (if Ascii.eqb c a then b else c) (replace_char a b s')
  end.

Definition digit_val (c : ascii) : Z := Z.of_N (code c) - 48.

(** The number that a string of decimal digits writes. *)
Definition digits_value (s : string) : Z :=
  fold_left (fun acc c => 10 * acc + digit_val c) (list_ascii_of_string s) 0.

Definition digit_char (d : nat) : ascii := ascii_of_nat (48 + d).

Fixpoint nat_digits (fuel n : nat) (acc : string) : string :=
  match fuel with
  | O => acc
  | S fuel' =>
      let acc' := String (digit_char (n mod 10)) acc in
      match (n / 10)%nat with
      | O => acc'
      | q => nat_digits fuel' q acc'
      end
  end.

(** [str(n)] for an [int] *)
Definition str_of_int (z : Z) : string :=
  let n := Z.abs_nat z in
  let d := nat_digits (S n) n EmptyString in
  if (z <? 0)%Z then String "-" d else d.

(** [sys.int_info.default_max_str_digits]: the interpreter refuses to
    convert a longer string of digits. *)
Definition max_str_digits : nat := 4300.

(** [int(s)] on a string of decimal digits: a [ValueError] above
    [max_str_digits] digits (leading zeros count), the number otherwise. *)
Definition int_of_digits (s : string) : result Z :=
  if (max_str_digits <? String.length s)%nat
  then Raise ("Exceeds the limit (4300 digits) for integer string conversion: value has "
              +:+ str_of_int (Z.of_nat (String.length s))
              +:+ " digits; use sys.set_int_max_str_digits() to increase the limit")
  else Ok (digits_value s).

(** [s * n] *)
Fixpoint mul (s : string) (n : nat) : string :=
  match n with
  | O => EmptyString
  | S n' => s +:+ mul s n'
  end.

End PyStr.

(** ** A small backtracking matcher for [re.search]

    Patterns are built from continuations: a matcher takes what must match
    the rest of the pattern and the text at the current position.  The
    repetitions are greedy and give characters back when the rest fails,
    as Python's engine does. *)

Module Re.
Section Matchers.
Context {R : Type}.

Fixpoint lit (p : string) (k : string -> option R) (s : string) : option R :=
  match p with
  | EmptyString => k s
  | String a p' =>
      match s with
      | String b s' => if Ascii.eqb a b then lit p' k s' else None
      | EmptyString => None
      end
  end.

(** [cls*] *)
Fixpoint star (cls : ascii -> bool) (k : string -> option R) (s : string)
  : option R :=
  match s with
  | String c s' =>
      if cls c then
        match star cls k s' with
        | Some r => Some r
        | None => k s
        end
      else k s
  | EmptyString => k s
  end.

(** The tail of a capturing [(cls+)]: [acc] is the text of the group so
    far, in reverse. *)
Fixpoint group_more (cls : ascii -> bool) (acc : string)
    (k : string -> string -> option R) (s : string) : option R :=
  match s with
  | String c s' =>
      if cls c then
        match group_more cls (String c acc) k s' with
        | Some r => Some r
        | None => k (PyStr.rev acc) s
        end
      else k (PyStr.rev acc) s
  | EmptyString => k (PyStr.rev acc) s
  end.

(** [(cls+)] *)
Definition group_plus (cls : ascii -> bool)
    (k : string -> string -> option R) (s : string) : option R :=
  match s with
  | String c s' => if cls c then group_more cls (String c EmptyString) k s' else None
  | EmptyString => None
  end.

(** [re.search]: the first position, from the left, where [m] matches. *)
Fixpoint search (m : string -> option R) (s : string) : option R :=
  match m s with
  | Some r => Some r
  | None =>
      match s with
      | EmptyString => None
      | String _ s' => search m s'
      end
  end.
End Matchers.
End Re.

(** ** [schemas.py]: the enumerations *)

Inductive TeachingStyle := DIRECT | SOCRATIC | VISUAL | FLIPPED_CLASSROOM.
Inductive EmotionalState := FOCUSED | ANXIOUS | CONFUSED | TIRED.
Inductive ToolIntent :=
  | FLASHCARD_GENERATOR | NOTE_MAKER | CONCEPT_EXPLAINER | QUIZ_GENERATOR | UNKNOWN.

#[global] Instance TeachingStyle_eq_dec : EqDecision TeachingStyle.
Proof. solve_decision. Defined.
#[global] Instance EmotionalState_eq_dec : EqDecision EmotionalState.
Proof. solve_decision. Defined.
#[global] Instance ToolIntent_eq_dec : EqDecision ToolIntent.
Proof. solve_decision. Defined.

Definition TeachingStyle_value (t : TeachingStyle) : string :=
  match t with
  | DIRECT => "direct" | SOCRATIC => "socratic" | VISUAL => "visual"
  | FLIPPED_CLASSROOM => "flipped_classroom"
  end.

Definition EmotionalState_value (e : EmotionalState) : string :=
  match e with
  | FOCUSED => "focused" | ANXIOUS => "anxious" | CONFUSED => "confused"
  | TIRED => "tired"
  end.

Definition ToolIntent_value (i : ToolIntent) : string :=
  match i with
  | FLASHCARD_GENERATOR => "flashcard_generator" | NOTE_MAKER => "note_maker"
  | CONCEPT_EXPLAINER => "concept_explainer" | QUIZ_GENERATOR => "quiz_generator"
  | UNKNOWN => "unknown"
  end.

Inductive MasteryLevel :=
  | LEVEL_1 | LEVEL_2 | LEVEL_3 | LEVEL_4 | LEVEL_5
  | LEVEL_6 | LEVEL_7 | LEVEL_8 | LEVEL_9 | LEVEL_10.

#[global] Instance MasteryLevel_eq_dec : EqDecision MasteryLevel.
Proof. solve_decision. Defined.

Definition MasteryLevel_value (m : MasteryLevel) : Z :=
  match m with
  | LEVEL_1 => 1 | LEVEL_2 => 2 | LEVEL_3 => 3 | LEVEL_4 => 4 | LEVEL_5 => 5
  | LEVEL_6 => 6 | LEVEL_7 => 7 | LEVEL_8 => 8 | LEVEL_9 => 9 | LEVEL_10 => 10
  end.

(** ** [workflow.py]: context inference *)

Definition confused_markers : list string :=
  ["confused"; "lost"; "don't understand"; "don't get"].
Definition anxious_markers : list string :=
  ["anxious"; "nervous"; "worried"; "struggling"; "hard"].
Definition tired_markers : list string :=
  ["tired"; "exhausted"; "sleepy"; "burned out"].
Definition focused_markers : list string :=
  ["focused"; "ready"; "excited"; "motivated"].

Definition _infer_emotional_state (message current_state : string) : EmotionalState :=
  let message_lower := PyStr.lower message in
  if PyStr.any_in confused_markers message_lower then CONFUSED
  else if PyStr.any_in anxious_markers message_lower then ANXIOUS
  else if PyStr.any_in tired_markers message_lower then TIRED
  else if PyStr.any_in focused_markers message_lower then FOCUSED
  else if PyStr.contains "focused" (PyStr.lower current_state) then FOCUSED
  else if PyStr.contains "anxious" (PyStr.lower current_state) then ANXIOUS
  else if PyStr.contains "confused" (PyStr.lower current_state) then CONFUSED
  else FOCUSED.

(** The pattern [Level\s*(\d+)]; the result is the text of group 1. *)
Definition level_pattern : string -> option string :=
  Re.lit "Level"
    (Re.star PyStr.is_space
       (Re.group_plus PyStr.is_digit (fun g _ => Some g))).

(** [int(mastery_match.group(1)) if mastery_match else 1]; the conversion
    raises on a group of more than [PyStr.max_str_digits] digits. *)
Definition mastery_of_summary (mastery_summary : string) : result Z :=
  match Re.search level_pattern mastery_summary with
  | Some g => PyStr.int_of_digits g
  | None => Ok 1
  end.

(** The level is converted first, whatever the emotional state: an
    exception of [int] leaves the function before the state is looked at. *)
Definition _infer_difficulty (mastery_summary : string)
    (emotional_state : EmotionalState) : result string :=
  match mastery_of_summary mastery_summary with
  | Raise e => Raise e
  | Ok mastery_level =>
      Ok (if bool_decide (emotional_state ∈ [ANXIOUS; CONFUSED; TIRED])
          then "easy"
          else if bool_decide (emotional_state = FOCUSED)
                  && (7 <=? mastery_level)%Z
          then "hard"
          else "medium")
  end.


(** ** Python values *)

(** What [json.loads] and [response.json()] return, and what the
    dictionaries of the workflow hold. *)
Inductive value : Type :=
  | VNone
  | VBool (b : bool)
  | VInt (z : Z)
  | VStr (s : string)
  | VList (l : list value)
  | VDict (d : gmap string value).

(** [bool(v)] *)
Definition truthy (v : value) : bool :=
  match v with
  | VNone => false
  | VBool b => b
  | VInt z => negb (z =? 0)%Z
  | VStr s => negb (String.eqb s "")
  | VList l => match l with [] => false | _ :: _ => true end
  | VDict d => negb (Nat.eqb (size d) 0)
  end.

(** ** [schemas.py]: the models and their validation *)

Inductive Role := USER | ASSISTANT.

Record Message := { role : Role; content : string }.

Record UserInfo := {
  ui_user_id : string;
  ui_name : string;
  ui_grade_level : string;
  ui_learning_style_summary : string;
  ui_emotional_state_summary : string;
  ui_mastery_level_summary : string
}.

Definition min_length_1 (s : string) : bool := negb (String.eqb s "").

Definition valid_states : list string :=
  ["focused"; "anxious"; "confused"; "tired"; "motivated"].

(** [UserInfo.validate_emotional_state] *)
Definition validate_emotional_state (v : string) : result string :=
  if negb (PyStr.any_in valid_states (PyStr.lower v))
  then Raise "Emotional state should contain one of ['focused', 'anxious', 'confused', 'tired', 'motivated']"
  else Ok v.

(** [UserInfo(...)]: the constructor with its field constraints. *)
Definition new_UserInfo (user_id name grade_level learning_style_summary
    emotional_state_summary mastery_level_summary : string) : result UserInfo :=
  if negb (min_length_1 user_id && min_length_1 name && min_length_1 grade_level
           && min_length_1 learning_style_summary
           && min_length_1 emotional_state_summary
           && min_length_1 mastery_level_summary)
  then Raise "String should have at least 1 character"
  else
    match validate_emotional_state emotional_state_summary with
    | Raise e => Raise e
    | Ok v =>
        Ok {| ui_user_id := user_id; ui_name := name;
              ui_grade_level := grade_level;
              ui_learning_style_summary := learning_style_summary;
              ui_emotional_state_summary := v;
              ui_mastery_level_summary := mastery_level_summary |}
    end.

Record EducationalContext := {
  teaching_style : TeachingStyle;
  emotional_state : EmotionalState;
  mastery_level : MasteryLevel;
  inferred_difficulty : string
}.

#[global] Instance EducationalContext_eq_dec : EqDecision EducationalContext.
Proof. solve_decision. Defined.

(** Validation of a [TeachingStyle] field from the text of a column. *)
Definition TeachingStyle_of (s : string) : result TeachingStyle :=
  if String.eqb s "direct" then Ok DIRECT
  else if String.eqb s "socratic" then Ok SOCRATIC
  else if String.eqb s "visual" then Ok VISUAL
  else if String.eqb s "flipped_classroom" then Ok FLIPPED_CLASSROOM
  else Raise "Input should be 'direct', 'socratic', 'visual' or 'flipped_classroom'".

(** Validation of a [MasteryLevel] field from an integer column. *)
Definition MasteryLevel_of (z : Z) : result MasteryLevel :=
  match z with
  | 1 => Ok LEVEL_1 | 2 => Ok LEVEL_2 | 3 => Ok LEVEL_3 | 4 => Ok LEVEL_4
  | 5 => Ok LEVEL_5 | 6 => Ok LEVEL_6 | 7 => Ok LEVEL_7 | 8 => Ok LEVEL_8
  | 9 => Ok LEVEL_9 | 10 => Ok LEVEL_10
  | _ => Raise "Input should be 1, 2, 3, 4, 5, 6, 7, 8, 9 or 10"
  end%Z.

(** [^(easy|medium|hard|beginner|intermediate|advanced)$] *)
Definition difficulty_pattern (s : string) : bool :=
  bool_decide (s ∈ ["easy"; "medium"; "hard"; "beginner"; "intermediate"; "advanced"]).

(** [EducationalContext(...)] *)
Definition new_EducationalContext (ts : string) (es : EmotionalState)
    (ml : Z) (difficulty : string) : result EducationalContext :=
  match TeachingStyle_of ts with
  | Raise e => Raise e
  | Ok ts' =>
      match MasteryLevel_of ml with
      | Raise e => Raise e
      | Ok ml' =>
          if difficulty_pattern difficulty
          then Ok {| teaching_style := ts'; emotional_state := es;
                     mastery_level := ml'; inferred_difficulty := difficulty |}
          else Raise "String should match pattern"
      end
  end.

Record APIRequest := {
  tool_name : string;
  req_user_info : UserInfo;
  req_chat_history : list Message;
  req_extracted_parameters : gmap string value;
  req_educational_context : EducationalContext
}.

(** [APIRequest(...)]: [user_info], [educational_context] must not be [None]
    and [extracted_parameters] must be a dictionary. *)
Definition new_APIRequest (name : string) (user_info : option UserInfo)
    (chat_history : list Message) (extracted_parameters : value)
    (educational_context : option EducationalContext) : result APIRequest :=
  match user_info, extracted_parameters, educational_context with
  | Some ui, VDict d, Some ctx =>
      Ok {| tool_name := name; req_user_info := ui;
            req_chat_history := chat_history;
            req_extracted_parameters := d;
            req_educational_context := ctx |}
  | None, _, _ => Raise "user_info: Input should be a valid dictionary or instance of UserInfo"
  | _, _, None => Raise "educational_context: Input should be a valid dictionary or instance of EducationalContext"
  | _, _, _ => Raise "extracted_parameters: Input should be a valid dictionary"
  end.

(** The parameter models of the four tools.  A dictionary is accepted when
    every required field is there with a value of the field's type that
    meets its constraint, and every field with a default is either absent
    or well typed. *)
Definition req_str (d : gmap string value) (k : string) (ok : string -> bool) : bool :=
  match d !! k with
  | Some (VStr s) => ok s
  | _ => false
  end.

Definition opt_int (d : gmap string value) (k : string) (lo hi : Z) : bool :=
  match d !! k with
  | Some (VInt z) => (lo <=? z)%Z && (z <=? hi)%Z
  | Some _ => false
  | None => true
  end.

Definition opt_bool (d : gmap string value) (k : string) : bool :=
  match d !! k with
  | Some (VBool _) | None => true
  | Some _ => false
  end.

Definition one_of (l : list string) (s : string) : bool := bool_decide (s ∈ l).

Definition FlashcardParams (d : gmap string value) : bool :=
  req_str d "topic" min_length_1
  && opt_int d "count" 1 20
  && req_str d "difficulty" (one_of ["easy"; "medium"; "hard"])
  && req_str d "subject" min_length_1
  && opt_bool d "include_examples".

Definition NoteMakerParams (d : gmap string value) : bool :=
  req_str d "topic" min_length_1
  && req_str d "subject" min_length_1
  && req_str d "note_taking_style"
       (one_of ["outline"; "bullet_points"; "narrative"; "structured"])
  && opt_bool d "include_examples"
  && opt_bool d "include_analogies".

Definition ConceptExplainerParams (d : gmap string value) : bool :=
  req_str d "concept_to_explain" min_length_1
  && req_str d "current_topic" min_length_1
  && req_str d "desired_depth"
       (one_of ["basic"; "intermediate"; "advanced"; "comprehensive"]).

Definition QuizGeneratorParams (d : gmap string value) : bool :=
  req_str d "topic" min_length_1
  && req_str d "subject" min_length_1
  && req_str d "difficulty" (one_of ["beginner"; "intermediate"; "advanced"])
  && req_str d "question_type"
       (one_of ["practice"; "multiple_choice"; "true_false"; "fill_blank"])
  && opt_int d "num_questions" 1 50.

(** The fields of the parameter model of a tool. *)
Definition params_fields (tool : ToolIntent) : gset string :=
  match tool with
  | FLASHCARD_GENERATOR =>
      {[ "topic"; "count"; "difficulty"; "subject"; "include_examples" ]}
  | NOTE_MAKER =>
      {[ "topic"; "subject"; "note_taking_style"; "include_examples";
         "include_analogies" ]}
  | CONCEPT_EXPLAINER =>
      {[ "concept_to_explain"; "current_topic"; "desired_depth" ]}
  | QUIZ_GENERATOR =>
      {[ "topic"; "subject"; "difficulty"; "question_type"; "num_questions" ]}
  | UNKNOWN => ∅
  end.

Definition params_model (tool : ToolIntent) (d : gmap string value) : bool :=
  match tool with
  | FLASHCARD_GENERATOR => FlashcardParams d
  | NOTE_MAKER => NoteMakerParams d
  | CONCEPT_EXPLAINER => ConceptExplainerParams d
  | QUIZ_GENERATOR => QuizGeneratorParams d
  | UNKNOWN => false
  end.

(** ** [database.py] *)

(** A row of [user_profiles], with the types of its columns.  The three
    columns that have a default may be missing from a record. *)
Record UserProfile := {
  user_id : string;
  name : string;
  grade_level : string;
  learning_style_summary : string;
  emotional_state_summary : string;
  mastery_level_summary : string;
  preferred_teaching_style : option string;
  current_emotional_state : option string;
  current_mastery_level : option Z
}.

Definition student123 : UserProfile := {|
  user_id := "student123";
  name := "Charlie";
  grade_level := "8";
  learning_style_summary := "Kinesthetic learner, learns best through practice and repetition";
  emotional_state_summary := "Focused and motivated to improve";
  mastery_level_summary := "Level 6: Good understanding, ready for application";
  preferred_teaching_style := Some (TeachingStyle_value DIRECT);
  current_emotional_state := Some (EmotionalState_value FOCUSED);
  current_mastery_level := Some (MasteryLevel_value LEVEL_6)
|}.

Definition student456 : UserProfile := {|
  user_id := "student456";
  name := "Alice";
  grade_level := "10";
  learning_style_summary := "Visual learner, prefers diagrams and structured notes";
  emotional_state_summary := "Anxious about new concepts";
  mastery_level_summary := "Level 3: Building foundational knowledge";
  preferred_teaching_style := Some (TeachingStyle_value VISUAL);
  current_emotional_state := Some (EmotionalState_value ANXIOUS);
  current_mastery_level := Some (MasteryLevel_value LEVEL_3)
|}.

Definition student789 : UserProfile := {|
  user_id := "student789";
  name := "Bob";
  grade_level := "7";
  learning_style_summary := "Auditory learner, prefers simple terms and step-by-step explanations";
  emotional_state_summary := "Confused about current topic";
  mastery_level_summary := "Level 4: Building foundational knowledge";
  preferred_teaching_style := Some (TeachingStyle_value SOCRATIC);
  current_emotional_state := Some (EmotionalState_value CONFUSED);
  current_mastery_level := Some (MasteryLevel_value LEVEL_4)
|}.

Definition SAMPLE_USERS : gmap string UserProfile :=
  <["student123" := student123]>
    (<["student456" := student456]>
       (<["student789" := student789]> ∅)).

(** [d[key]] raises [KeyError] on a missing key. *)
Definition getitem {V} (d : gmap string V) (key : string) : result V :=
  match d !! key with
  | Some v => Ok v
  | None => Raise ("'" +:+ key +:+ "'")
  end.

(** [Database.get_user_profile]:
    [SAMPLE_USERS.get(user_id, SAMPLE_USERS["student123"])].  The default
    is evaluated before the lookup, as an argument of [get]. *)
Definition Database_get_user_profile (uid : string) : result (option UserProfile) :=
  match getitem SAMPLE_USERS "student123" with
  | Raise e => Raise e
  | Ok dflt => Ok (Some (default dflt (SAMPLE_USERS !! uid)))
  end.

(** ** The collaborators of the workflow and its effects *)

Inductive PromptTemplate :=
  | INTENT_ANALYSIS_PROMPT
  | PARAMETER_EXTRACTION_PROMPT (tool : string).

(** A prompt: the template and the values [str.format] puts in it. *)
Record Prompt := {
  template : PromptTemplate;
  p_message : string;
  p_chat_history : list Message;
  p_user_info : UserInfo;
  p_emotional_state : string;
  p_mastery_level : Z;
  p_teaching_style : string
}.

(** [PARAMETER_EXTRACTION_PROMPTS], a dictionary with one template per tool. *)
Definition PARAMETER_EXTRACTION_PROMPTS : gmap string PromptTemplate :=
  <["flashcard_generator" := PARAMETER_EXTRACTION_PROMPT "flashcard_generator"]>
    (<["note_maker" := PARAMETER_EXTRACTION_PROMPT "note_maker"]>
       (<["concept_explainer" := PARAMETER_EXTRACTION_PROMPT "concept_explainer"]>
          (<["quiz_generator" := PARAMETER_EXTRACTION_PROMPT "quiz_generator"]> ∅))).

(** An [httpx] response: its status and what [response.json()] does. *)
Record Response := {
  status_code : Z;
  json : result value
}.

(** What the workflow does to the outside: calls of the model and POSTs,
    in the order they happen.  The time-out is in seconds. *)
Inductive event :=
  | LlmCall (p : Prompt)
  | HttpPost (url : string) (body : APIRequest) (timeout : Z).

Definition is_post (e : event) : bool :=
  match e with HttpPost _ _ _ => true | LlmCall _ => false end.

(** The POSTs of a trace. *)
Definition posts (t : list event) : list event := filter (λ e, is_post e = true) t.

(** The collaborators.  Each answer may depend on everything that happened
    before the call, so that no collaborator is assumed to be deterministic. *)
Class Env := {
  (** [self.llm.ainvoke(messages)], giving [response.content] *)
  llm_ainvoke : list event -> Prompt -> result string;
  (** [self.db.get_user_profile(user_id)] *)
  db_get_user_profile : string -> result (option UserProfile);
  (** [client.post(url, json=..., timeout=...)] *)
  client_post : list event -> string -> APIRequest -> Z -> result Response;
  (** [json.loads] *)
  json_loads : string -> result value;
  (** [json.dumps(data, indent=2)] *)
  json_dumps : value -> string;
  (** [str] of a list or a dictionary *)
  py_repr : value -> string
}.

(** A computation with effects: from the trace so far to an outcome and the
    extended trace. *)
Definition M (A : Type) : Type := list event -> result A * list event.

Definition ret {A} (a : A) : M A := λ t, (Ok a, t).

Definition raise {A} (e : string) : M A := λ t, (Raise e, t).

Definition bind {A B} (m : M A) (f : A -> M B) : M B :=
  λ t, match m t with
       | (Ok a, t') => f a t'
       | (Raise e, t') => (Raise e, t')
       end.

Definition lift {A} (r : result A) : M A := λ t, (r, t).

(** [try: body  except Exception as e: handler(e)] *)
Definition try_except {A} (body : M A) (handler : string -> M A) : M A :=
  λ t, match body t with
       | (Ok a, t') => (Ok a, t')
       | (Raise e, t') => handler e t'
       end.

Notation "'let*' x ':=' m 'in' k" := (bind m (λ x, k))
  (at level 10, x name, m at level 100, k at level 200, only parsing).

(** [x.attr] where [x] may be [None] *)
Definition attr_of {A} (what : string) (o : option A) : M A :=
  match o with
  | Some a => ret a
  | None => raise ("'NoneType' object has no attribute '" +:+ what +:+ "'")
  end.

Definition ainvoke `{Env} (p : Prompt) : M string :=
  λ t, (llm_ainvoke t p, (t ++ [LlmCall p])%list).

Definition post `{Env} (url : string) (body : APIRequest) (timeout : Z) : M Response :=
  λ t, (client_post t url body timeout, (t ++ [HttpPost url body timeout])%list).

(** ** [workflow.py]: the state and the nodes *)

Record WorkflowState := {
  st_user_id : string;
  st_session_id : string;
  st_message : string;
  st_chat_history : list Message;
  st_user_info : option UserInfo;
  st_educational_context : option EducationalContext;
  st_intent : option ToolIntent;
  st_extracted_parameters : value;
  st_api_response : value;
  st_final_response : option string
}.

Definition set_user_info (s : WorkflowState) (v : option UserInfo) :=
  {| st_user_id := st_user_id s; st_session_id := st_session_id s;
     st_message := st_message s; st_chat_history := st_chat_history s;
     st_user_info := v;
     st_educational_context := st_educational_context s;
     st_intent := st_intent s;
     st_extracted_parameters := st_extracted_parameters s;
     st_api_response := st_api_response s;
     st_final_response := st_final_response s |}.

Definition set_educational_context (s : WorkflowState) (v : option EducationalContext) :=
  {| st_user_id := st_user_id s; st_session_id := st_session_id s;
     st_message := st_message s; st_chat_history := st_chat_history s;
     st_user_info := st_user_info s;
     st_educational_context := v;
     st_intent := st_intent s;
     st_extracted_parameters := st_extracted_parameters s;
     st_api_response := st_api_response s;
     st_final_response := st_final_response s |}.

Definition set_intent (s : WorkflowState) (v : option ToolIntent) :=
  {| st_user_id := st_user_id s; st_session_id := st_session_id s;
     st_message := st_message s; st_chat_history := st_chat_history s;
     st_user_info := st_user_info s;
     st_educational_context := st_educational_context s;
     st_intent := v;
     st_extracted_parameters := st_extracted_parameters s;
     st_api_response := st_api_response s;
     st_final_response := st_final_response s |}.

Definition set_extracted_parameters (s : WorkflowState) (v : value) :=
  {| st_user_id := st_user_id s; st_session_id := st_session_id s;
     st_message := st_message s; st_chat_history := st_chat_history s;
     st_user_info := st_user_info s;
     st_educational_context := st_educational_context s;
     st_intent := st_intent s;
     st_extracted_parameters := v;
     st_api_response := st_api_response s;
     st_final_response := st_final_response s |}.

Definition set_api_response (s : WorkflowState) (v : value) :=
  {| st_user_id := st_user_id s; st_session_id := st_session_id s;
     st_message := st_message s; st_chat_history := st_chat_history s;
     st_user_info := st_user_info s;
     st_educational_context := st_educational_context s;
     st_intent := st_intent s;
     st_extracted_parameters := st_extracted_parameters s;
     st_api_response := v;
     st_final_response := st_final_response s |}.

Definition set_final_response (s : WorkflowState) (v : option string) :=
  {| st_user_id := st_user_id s; st_session_id := st_session_id s;
     st_message := st_message s; st_chat_history := st_chat_history s;
     st_user_info := st_user_info s;
     st_educational_context := st_educational_context s;
     st_intent := st_intent s;
     st_extracted_parameters := st_extracted_parameters s;
     st_api_response := st_api_response s;
     st_final_response := v |}.

Section Nodes.
Context `{Env}.

Definition retrieve_state (state : WorkflowState) : M WorkflowState :=
  let* user_profile := lift (db_get_user_profile (st_user_id state)) in
  match user_profile with
  | Some p =>
      let* ui := lift (new_UserInfo (user_id p) (name p) (grade_level p)
                   (learning_style_summary p) (emotional_state_summary p)
                   (mastery_level_summary p)) in
      ret (set_user_info state (Some ui))
  | None => ret state
  end.

(** The fallback context of [analyze_educational_context]. *)
Definition fallback_context : result EducationalContext :=
  new_EducationalContext (TeachingStyle_value DIRECT) FOCUSED
    (MasteryLevel_value LEVEL_1) "medium".

(** The [try] block of [analyze_educational_context]. *)
Definition analyze_educational_context_try (state : WorkflowState)
  : M WorkflowState :=
  let user_info := st_user_info state in
  let message := st_message state in
  let* ui := attr_of "emotional_state_summary" user_info in
  let emotional_state :=
    _infer_emotional_state message (ui_emotional_state_summary ui) in
  let* inferred_difficulty :=
    lift (_infer_difficulty (ui_mastery_level_summary ui) emotional_state) in
  let* user_profile := lift (db_get_user_profile (st_user_id state)) in
  let* p := attr_of "get" user_profile in
  let teaching_style :=
    default (TeachingStyle_value DIRECT) (preferred_teaching_style p) in
  let* ctx := lift (new_EducationalContext teaching_style emotional_state
                (default (MasteryLevel_value LEVEL_1) (current_mastery_level p))
                inferred_difficulty) in
  ret (set_educational_context state (Some ctx)).

Definition analyze_educational_context (state : WorkflowState)
  : M WorkflowState :=
  try_except (analyze_educational_context_try state)
    (λ e,
       let* ctx := lift fallback_context in
       ret (set_educational_context state (Some ctx))).

Definition intent_map : list (string * ToolIntent) :=
  [("flashcard", FLASHCARD_GENERATOR);
   ("note", NOTE_MAKER);
   ("concept", CONCEPT_EXPLAINER);
   ("explain", CONCEPT_EXPLAINER);
   ("quiz", QUIZ_GENERATOR);
   ("practice", QUIZ_GENERATOR);
   ("question", QUIZ_GENERATOR)].

(** The [for] loop over [intent_map.items()]: the intent of the first
    keyword found in [tool_name], if any. *)
Fixpoint first_keyword (table : list (string * ToolIntent)) (tool_name : string)
  : option ToolIntent :=
  match table with
  | [] => None
  | (keyword, intent) :: rest =>
      if PyStr.contains keyword tool_name then Some intent
      else first_keyword rest tool_name
  end.

Definition _analyze_intent_keywords (message : string) : ToolIntent :=
  let message_lower := PyStr.lower message in
  if PyStr.any_in ["flashcard"; "memorize"; "cards"; "practice terms"; "drill"]
       message_lower
  then FLASHCARD_GENERATOR
  else if PyStr.any_in ["note"; "notes"; "summary"; "outline"; "write"]
            message_lower
  then NOTE_MAKER
  else if PyStr.any_in ["explain"; "concept"; "understand"; "what is";
                        "how does"; "tell me about"] message_lower
  then CONCEPT_EXPLAINER
  else if PyStr.any_in ["quiz"; "practice"; "questions"; "test"; "problems";
                        "exercises"] message_lower
  then QUIZ_GENERATOR
  else UNKNOWN.

(** The prompt of a template, from the state: [model_dump] and [.value]
    fail on [None]. *)
Definition format_prompt (tpl : PromptTemplate) (state : WorkflowState) : M Prompt :=
  let* ui := attr_of "model_dump" (st_user_info state) in
  let* ctx := attr_of "emotional_state" (st_educational_context state) in
  ret {| template := tpl;
         p_message := st_message state;
         p_chat_history := st_chat_history state;
         p_user_info := ui;
         p_emotional_state := EmotionalState_value (emotional_state ctx);
         p_mastery_level := MasteryLevel_value (mastery_level ctx);
         p_teaching_style := TeachingStyle_value (teaching_style ctx) |}.

(** The [try] block of [analyze_intent]. *)
Definition analyze_intent_try (state : WorkflowState) : M WorkflowState :=
  let* prompt := format_prompt INTENT_ANALYSIS_PROMPT state in
  let* response_content := ainvoke prompt in
  let tool_name := PyStr.lower (PyStr.strip response_content) in
  match first_keyword intent_map tool_name with
  | Some intent => ret (set_intent state (Some intent))
  | None =>
      ret (set_intent state (Some (_analyze_intent_keywords (st_message state))))
  end.

Definition analyze_intent (state : WorkflowState) : M WorkflowState :=
  try_except (analyze_intent_try state)
    (λ e, ret (set_intent state
                 (Some (_analyze_intent_keywords (st_message state))))).

Definition _get_fallback_params (tool_name : string) : gmap string value :=
  let fallbacks : gmap string (gmap string value) :=
    <["flashcard_generator" :=
        <["topic" := VStr "general"]>
          (<["count" := VInt 5]>
             (<["difficulty" := VStr "medium"]>
                (<["subject" := VStr "general"]>
                   (<["include_examples" := VBool true]> ∅))))]>
      (<["note_maker" :=
           <["topic" := VStr "general"]>
             (<["subject" := VStr "general"]>
                (<["note_taking_style" := VStr "structured"]>
                   (<["include_examples" := VBool true]>
                      (<["include_analogies" := VBool false]> ∅))))]>
         (<["concept_explainer" :=
              <["concept_to_explain" := VStr "general concept"]>
                (<["current_topic" := VStr "general"]>
                   (<["desired_depth" := VStr "intermediate"]> ∅))]>
            (<["quiz_generator" :=
                 <["topic" := VStr "general"]>
                   (<["subject" := VStr "general"]>
                      (<["difficulty" := VStr "intermediate"]>
                         (<["question_type" := VStr "practice"]>
                            (<["num_questions" := VInt 10]> ∅))))]> ∅))) in
  default ∅ (fallbacks !! tool_name).

(** The code-fence clean-up of [_extract_parameters]. *)
Definition clean_json_response (params_text : string) : string :=
  if PyStr.startswith "```json" params_text
  then PyStr.strip (PyStr.slice_to_end_minus 7 3 params_text)
  else if PyStr.startswith "```" params_text
  then PyStr.strip (PyStr.slice_to_end_minus 3 3 params_text)
  else params_text.

(** The [try] block of [_extract_parameters]. *)
Definition _extract_parameters_try (tool_name : string) (state : WorkflowState)
  : M WorkflowState :=
  let* tpl := lift (getitem PARAMETER_EXTRACTION_PROMPTS tool_name) in
  let* prompt := format_prompt tpl state in
  let* response_content := ainvoke prompt in
  let params_text := clean_json_response (PyStr.strip response_content) in
  let* params := lift (json_loads params_text) in
  ret (set_extracted_parameters state params).

Definition _extract_parameters (tool_name : string) (state : WorkflowState)
  : M WorkflowState :=
  try_except (_extract_parameters_try tool_name state)
    (λ e, ret (set_extracted_parameters state
                 (VDict (_get_fallback_params tool_name)))).

Definition extract_flashcard_params := _extract_parameters "flashcard_generator".
Definition extract_note_params := _extract_parameters "note_maker".
Definition extract_concept_params := _extract_parameters "concept_explainer".
Definition extract_quiz_params := _extract_parameters "quiz_generator".

(** [tool_mapping.get(state["intent"])] *)
Definition tool_mapping (intent : option ToolIntent) : option string :=
  match intent with
  | Some FLASHCARD_GENERATOR => Some "http://localhost:8001"
  | Some NOTE_MAKER => Some "http://localhost:8002"
  | Some CONCEPT_EXPLAINER => Some "http://localhost:8003"
  | Some QUIZ_GENERATOR => Some "http://localhost:8004"
  | Some UNKNOWN | None => None
  end.

(** [{"success": False, "error": msg}] *)
Definition failure (msg : string) : value :=
  VDict (<["success" := VBool false]> (<["error" := VStr msg]> ∅)).

(** The [try] block of [dispatch_to_api]. *)
Definition dispatch_to_api_try (state : WorkflowState) : M WorkflowState :=
  match tool_mapping (st_intent state) with
  | None => ret (set_api_response state (failure "Tool not configured"))
  | Some api_url =>
      if negb (truthy (VStr api_url))
      then ret (set_api_response state (failure "Tool not configured"))
      else
        let* intent := attr_of "value" (st_intent state) in
        let* request_data :=
          lift (new_APIRequest (ToolIntent_value intent) (st_user_info state)
                  (st_chat_history state) (st_extracted_parameters state)
                  (st_educational_context state)) in
        let* response := post (api_url +:+ "/invoke") request_data 60 in
        if (status_code response =? 200)%Z
        then
          let* body := lift (json response) in
          ret (set_api_response state body)
        else
          ret (set_api_response state
                 (failure ("API server error: "
                           +:+ PyStr.str_of_int (status_code response))))
  end.

Definition dispatch_to_api (state : WorkflowState) : M WorkflowState :=
  if bool_decide (st_intent state = Some UNKNOWN) then ret state
  else
    try_except (dispatch_to_api_try state)
      (λ e, ret (set_api_response state (failure ("Connection error: " +:+ e)))).

(** [', '.join(l)] *)
Fixpoint join_comma (l : list string) : string :=
  match l with
  | [] => ""
  | [x] => x
  | x :: rest => x +:+ ", " +:+ join_comma rest
  end.

Definition _get_adaptation_note (context : EducationalContext) : string :=
  let adaptations : list string := [] in
  let adaptations :=
    match emotional_state context with
    | ANXIOUS => (adaptations ++ ["simplified for comfort"])%list
    | CONFUSED => (adaptations ++ ["broken down into simpler concepts"])%list
    | TIRED => (adaptations ++ ["made concise for easy digestion"])%list
    | FOCUSED => adaptations
    end in
  let adaptations :=
    match teaching_style context with
    | VISUAL => (adaptations ++ ["enhanced with visual elements"])%list
    | SOCRATIC => (adaptations ++ ["structured to encourage thinking"])%list
    | _ => adaptations
    end in
  match adaptations with
  | _ :: _ => "Adaptations: " +:+ join_comma adaptations +:+ "."
  | [] => "Tailored to your learning preferences."
  end.

(** [d.get(key)] on a value: [AttributeError] unless [d] is a dictionary. *)
Definition value_get (d : value) (key : string) (dflt : value) : result value :=
  match d with
  | VDict m => Ok (default dflt (m !! key))
  | _ => Raise "object has no attribute 'get'"
  end.

(** [d[key]] on a value that has an attribute [get] *)
Definition value_getitem (d : value) (key : string) : result value :=
  match d with
  | VDict m => getitem m key
  | _ => Raise "object is not subscriptable"
  end.

(** What an f-string puts in place of [{v}]. *)
Definition format_value (v : value) : string :=
  match v with
  | VStr s => s
  | VNone => "None"
  | VBool true => "True"
  | VBool false => "False"
  | VInt z => PyStr.str_of_int z
  | VList _ | VDict _ => py_repr v
  end.

Definition clarification_message : string :=
  "I understand you need help with learning. Could you please specify if you'd like flashcards, notes, concept explanations, or practice questions?".

Definition issue_message (error : string) : string :=
  "I encountered an issue while processing your request: " +:+ error
  +:+ ". Please try again.".

Definition newline : string := String (ascii_of_nat 10) "".

Definition format_response (state : WorkflowState) : result WorkflowState :=
  if bool_decide (st_intent state = Some UNKNOWN)
  then Ok (set_final_response state (Some clarification_message))
  else
    let api_response := st_api_response state in
    match (if truthy api_response
           then match value_get api_response "success" VNone with
                | Ok v => Ok (truthy v)
                | Raise e => Raise e
                end
           else Ok false) with
    | Raise e => Raise e
    | Ok true =>
        match value_getitem api_response "data" with
        | Raise e => Raise e
        | Ok data =>
            match st_intent state, st_educational_context state with
            | None, _ => Raise "'NoneType' object has no attribute 'value'"
            | Some _, None =>
                Raise "'NoneType' object has no attribute 'emotional_state'"
            | Some intent, Some context =>
                let tool_name :=
                  PyStr.replace_char "_" " " (ToolIntent_value intent) in
                let adaptation_note := _get_adaptation_note context in
                Ok (set_final_response state
                      (Some ("I've generated " +:+ tool_name
                             +:+ " for you, adapted to your learning needs."
                             +:+ newline +:+ adaptation_note +:+ newline
                             +:+ "Here are your results:" +:+ newline +:+ newline
                             +:+ json_dumps data)))
            end
        end
    | Ok false =>
        match (if truthy api_response
               then value_get api_response "error" (VStr "Unknown error")
               else Ok (VStr "No response from tool")) with
        | Raise e => Raise e
        | Ok error =>
            Ok (set_final_response state
                  (Some (issue_message (format_value error))))
        end
    end.

Definition route_by_intent (state : WorkflowState) : string :=
  match st_intent state with
  | Some FLASHCARD_GENERATOR => "extract_flashcard_params"
  | Some NOTE_MAKER => "extract_note_params"
  | Some CONCEPT_EXPLAINER => "extract_concept_params"
  | Some QUIZ_GENERATOR => "extract_quiz_params"
  | Some UNKNOWN => "format_response"
  | None => "format_response"
  end.
End Nodes.

(** ** [_build_graph]: the nodes and the edges *)

Inductive Node :=
  | node_retrieve_state
  | node_analyze_educational_context
  | node_analyze_intent
  | node_extract_flashcard_params
  | node_extract_note_params
  | node_extract_concept_params
  | node_extract_quiz_params
  | node_dispatch_to_api
  | node_format_response.

(** The target of an edge: a node or [END]. *)
Inductive Target := To (n : Node) | END.

Section Graph.
Context `{Env}.

(** [add_node] *)
Definition node_action (n : Node) : WorkflowState -> M WorkflowState :=
  match n with
  | node_retrieve_state => retrieve_state
  | node_analyze_educational_context => analyze_educational_context
  | node_analyze_intent => analyze_intent
  | node_extract_flashcard_params => extract_flashcard_params
  | node_extract_note_params => extract_note_params
  | node_extract_concept_params => extract_concept_params
  | node_extract_quiz_params => extract_quiz_params
  | node_dispatch_to_api => dispatch_to_api
  | node_format_response => λ state, lift (format_response state)
  end.

(** The path map of [add_conditional_edges]. *)
Definition path_map : gmap string Node :=
  <["extract_flashcard_params" := node_extract_flashcard_params]>
    (<["extract_note_params" := node_extract_note_params]>
       (<["extract_concept_params" := node_extract_concept_params]>
          (<["extract_quiz_params" := node_extract_quiz_params]>
             (<["format_response" := node_format_response]> ∅)))).

(** [add_edge] and [add_conditional_edges]: where to go after a node has
    run, given the state it returned. *)
Definition next_node (n : Node) (state : WorkflowState) : result Target :=
  match n with
  | node_retrieve_state => Ok (To node_analyze_educational_context)
  | node_analyze_educational_context => Ok (To node_analyze_intent)
  | node_analyze_intent =>
      match getitem path_map (route_by_intent state) with
      | Ok n' => Ok (To n')
      | Raise e => Raise e
      end
  | node_extract_flashcard_params | node_extract_note_params
  | node_extract_concept_params | node_extract_quiz_params =>
      Ok (To node_dispatch_to_api)
  | node_dispatch_to_api => Ok (To node_format_response)
  | node_format_response => Ok END
  end.

(** Running the compiled graph from node [n]; [limit] is the number of
    steps the graph may still take. *)
Fixpoint run_from (limit : nat) (n : Node) (state : WorkflowState)
  : M WorkflowState :=
  match limit with
  | O => raise "Recursion limit reached without hitting a stop condition"
  | S limit' =>
      let* state' := node_action n state in
      let* target := lift (next_node n state') in
      match target with
      | END => ret state'
      | To n' => run_from limit' n' state'
      end
  end.

(** The default [recursion_limit] of a compiled graph. *)
Definition recursion_limit : nat := 25.

(** [self.graph.ainvoke(initial_state)], from the entry point. *)
Definition graph_ainvoke (initial_state : WorkflowState) : M WorkflowState :=
  run_from recursion_limit node_retrieve_state initial_state.
End Graph.

(** ** [main.py] *)

(** The [initial_state] of [chat_endpoint]. *)
Definition initial_state (uid session_id message : string)
    (chat_history : list Message) : WorkflowState :=
  {| st_user_id := uid; st_session_id := session_id; st_message := message;
     st_chat_history := chat_history;
     st_user_info := None; st_educational_context := None; st_intent := None;
     st_extracted_parameters := VDict ∅;
     st_api_response := VNone; st_final_response := None |}.

(** What a route gives back: the body of a 200 response, or an
    [HTTPException]. *)
Inductive reply (A : Type) : Type :=
  | HTTP_200 (body : A)
  | HTTPException (status : Z) (detail : string).
Arguments HTTP_200 {A} body.
Arguments HTTPException {A} status detail.

(** [GET /user/{user_id}]; [lookup] is [workflow.db.get_user_profile]. *)
Definition get_user_profile
    (lookup : string -> result (option UserProfile)) (uid : string)
  : reply (option UserProfile) :=
  match lookup uid with
  | Ok user_profile => HTTP_200 user_profile
  | Raise e => HTTPException 404 ("User not found: " +:+ e)
  end.

(** ** The rules of the specification, in its own words *)

(** "Parse an integer mastery level out of the summary via a [Level N]
    pattern": the first place, from the left, where [Level], then any
    white space, then at least one digit stand; [N] is the whole run of
    digits there. *)
Definition level_N_here (s : string) : option string :=
  if PyStr.startswith "Level" s then
    match PyStr.take PyStr.is_digit (PyStr.skip PyStr.is_space (PyStr.drop 5 s)) with
    | EmptyString => None
    | digits => Some digits
    end
  else None.

Fixpoint level_N (s : string) : option string :=
  match level_N_here s with
  | Some digits => Some digits
  | None =>
      match s with
      | EmptyString => None
      | String _ s' => level_N s'
      end
  end.

(** "Default 1 if absent." *)
Definition parsed_mastery (mastery_summary : string) : Z :=
  from_option PyStr.digits_value 1 (level_N mastery_summary).

(** The level that the summary writes can be converted by [int]: there is
    none, or it has at most [PyStr.max_str_digits] digits. *)
Definition level_converts (mastery_summary : string) : bool :=
  match level_N mastery_summary with
  | Some digits => (String.length digits <=? PyStr.max_str_digits)%nat
  | None => true
  end.

(** A summary whose level has 4301 digits: ["Level " + "7" * 4301]. *)
Definition long_level_summary : string :=
  "Level " +:+ PyStr.mul "7" 4301.

(** "If emotional_state ∈ {anxious, confused, tired} → easy.  Else if
    emotional_state = focused AND mastery ≥ 7 → hard.  Else → medium." *)
Definition difficulty_rule (mastery : Z) (es : EmotionalState) : string :=
  match es with
  | ANXIOUS | CONFUSED | TIRED => "easy"
  | FOCUSED => if (7 <=? mastery)%Z then "hard" else "medium"
  end.

(** The safe default context: direct, focused, level 1, medium. *)
Definition safe_default_context : EducationalContext :=
  {| teaching_style := DIRECT; emotional_state := FOCUSED;
     mastery_level := LEVEL_1; inferred_difficulty := "medium" |}.

(** The quiz fallback of the specification. *)
Definition quiz_fallback : gmap string value :=
  {[ "topic" := VStr "general"; "subject" := VStr "general";
     "difficulty" := VStr "intermediate"; "question_type" := VStr "practice";
     "num_questions" := VInt 10 ]}.

(** The contract of context inference, [infer(message, profile)]: the
    emotional state by the keyword rules, the difficulty by the rule above,
    teaching style and mastery level verbatim from the stored profile; the
    safe default as a whole when any of this cannot be had, the level of
    the summary that [int] refuses included. *)
Definition infer `{Env} (message : string) (user_info : option UserInfo)
    (uid : string) : EducationalContext :=
  match user_info, db_get_user_profile uid with
  | Some ui, Ok (Some p) =>
      let es := _infer_emotional_state message (ui_emotional_state_summary ui) in
      match level_converts (ui_mastery_level_summary ui),
            TeachingStyle_of (default "direct" (preferred_teaching_style p)),
            MasteryLevel_of (default 1%Z (current_mastery_level p)) with
      | true, Ok ts, Ok ml =>
          {| teaching_style := ts; emotional_state := es; mastery_level := ml;
             inferred_difficulty :=
               difficulty_rule (parsed_mastery (ui_mastery_level_summary ui)) es |}
      | _, _, _ => safe_default_context
      end
  | _, _ => safe_default_context
  end.

(** What the model answers to the prompt of template [tpl] in [state], or
    the exception that keeps the answer from arriving. *)
Definition model_reply `{Env} (tpl : result PromptTemplate)
    (state : WorkflowState) (t : list event) : result string :=
  match tpl with
  | Raise e => Raise e
  | Ok tpl' =>
      match format_prompt tpl' state t with
      | (Ok p, t') => llm_ainvoke t' p
      | (Raise e, _) => Raise e
      end
  end.

(** ** Environments to run the workflow in *)

(** An environment in which the model and the HTTP client give one fixed
    answer each, over the sample [Database]. *)
Definition scripted_env (model : result string) (server : result Response)
    (loads : string -> result value) : Env :=
  {| llm_ainvoke := λ _ _, model;
     db_get_user_profile := Database_get_user_profile;
     client_post := λ _ _ _ _, server;
     json_loads := loads;
     json_dumps := λ _, "{}";
     py_repr := λ _, "{}" |}.

(** The same, with a profile store that gives a fixed outcome. *)
Definition scripted_env_db (store : result (option UserProfile))
    (model : result string) : Env :=
  {| llm_ainvoke := λ _ _, model;
     db_get_user_profile := λ _, store;
     client_post := λ _ _ _ _, Raise "All connection attempts failed";
     json_loads := λ _, Raise "Expecting value: line 1 column 1 (char 0)";
     json_dumps := λ _, "{}";
     py_repr := λ _, "{}" |}.

Definition no_json (s : string) : result value :=
  Raise "Expecting value: line 1 column 1 (char 0)".

(** A state as it reaches [dispatch_to_api] for a quiz: the user, the
    context and the parameters are in place; and the request built from
    it. *)
Definition alex : UserInfo :=
  {| ui_user_id := "student123"; ui_name := "Alex";
     ui_grade_level := "10";
     ui_learning_style_summary := "Visual learner";
     ui_emotional_state_summary := "Focused and motivated";
     ui_mastery_level_summary := "Level 6: Good understanding" |}.

Definition quiz_dispatch_state : WorkflowState :=
  {| st_user_id := "student123"; st_session_id := "s1";
     st_message := "Quiz me on algebra"; st_chat_history := [];
     st_user_info := Some alex;
     st_educational_context := Some safe_default_context;
     st_intent := Some QUIZ_GENERATOR;
     st_extracted_parameters := VDict quiz_fallback;
     st_api_response := VNone; st_final_response := None |}.

Definition quiz_dispatch_request : APIRequest :=
  {| tool_name := "quiz_generator"; req_user_info := alex;
     req_chat_history := [];
     req_extracted_parameters := quiz_fallback;
     req_educational_context := safe_default_context |}.

(** ** The run of the graph, written as a sequence of stages *)

(** The extraction node that [route_by_intent] selects, if any. *)
Definition extract_params_for `{Env} (intent : option ToolIntent)
  : option (WorkflowState -> M WorkflowState) :=
  match intent with
  | Some FLASHCARD_GENERATOR => Some extract_flashcard_params
  | Some NOTE_MAKER => Some extract_note_params
  | Some CONCEPT_EXPLAINER => Some extract_concept_params
  | Some QUIZ_GENERATOR => Some extract_quiz_params
  | Some UNKNOWN | None => None
  end.

Definition pipeline `{Env} (state : WorkflowState) : M WorkflowState :=
  let* state1 := retrieve_state state in
  let* state2 := analyze_educational_context state1 in
  let* state3 := analyze_intent state2 in
  match extract_params_for (st_intent state3) with
  | Some extract =>
      let* state4 := extract state3 in
      let* state5 := dispatch_to_api state4 in
      lift (format_response state5)
  | None => lift (format_response state3)
  end.

(** ** [main.py]: the chat endpoint *)

Record ChatRequest := {
  cr_user_id : string;
  cr_session_id : string;
  cr_message : string;
  cr_chat_history : list Message
}.

(** [ChatRequest(...)]: the validation of the request body. *)
Definition new_ChatRequest (uid session_id message : string)
    (chat_history : list Message) : result ChatRequest :=
  if min_length_1 uid && min_length_1 session_id && min_length_1 message
  then Ok {| cr_user_id := uid; cr_session_id := session_id;
             cr_message := message; cr_chat_history := chat_history |}
  else Raise "String should have at least 1 character".

Record ChatResponse := {
  response : string;
  tool_used : option string;
  data : option (gmap string value);
  educational_context_used : option (gmap string value)
}.

(** [ChatResponse(...)]: [response] must be a string, [data] a dictionary
    or [None]. *)
Definition new_ChatResponse (response_arg : option string)
    (tool_used_arg : option string) (data_arg : value)
    (context_arg : option (gmap string value)) : result ChatResponse :=
  match response_arg with
  | None => Raise "response: Input should be a valid string"
  | Some r =>
      match data_arg with
      | VNone =>
          Ok {| response := r; tool_used := tool_used_arg; data := None;
                educational_context_used := context_arg |}
      | VDict d =>
          Ok {| response := r; tool_used := tool_used_arg; data := Some d;
                educational_context_used := context_arg |}
      | _ => Raise "data: Input should be a valid dictionary"
      end
  end.

(** The dictionary [chat_endpoint] builds from the context of the result. *)
Definition context_dict (ctx : EducationalContext) : gmap string value :=
  <["teaching_style" := VStr (TeachingStyle_value (teaching_style ctx))]>
    (<["emotional_state" := VStr (EmotionalState_value (emotional_state ctx))]>
       (<["mastery_level" := VInt (MasteryLevel_value (mastery_level ctx))]>
          (<["inferred_difficulty" := VStr (inferred_difficulty ctx)]> ∅))).

(** The [try] block of [chat_endpoint]. *)
Definition chat_endpoint_try `{Env} (request : ChatRequest) : M ChatResponse :=
  let state0 :=
    initial_state (cr_user_id request) (cr_session_id request)
      (cr_message request) (cr_chat_history request) in
  let* result := graph_ainvoke state0 in
  let educational_context :=
    match st_educational_context result with
    | Some ctx => Some (context_dict ctx)
    | None => None
    end in
  let* data_arg :=
    lift (if truthy (st_api_response result)
          then value_get (st_api_response result) "data" VNone
          else Ok VNone) in
  lift (new_ChatResponse (st_final_response result)
          (ToolIntent_value <$> st_intent result) data_arg educational_context).

(** [chat_endpoint]: any exception becomes a 500. *)
Definition chat_endpoint `{Env} (request : ChatRequest) (t : list event)
  : reply ChatResponse * list event :=
  match chat_endpoint_try request t with
  | (Ok r, t') => (HTTP_200 r, t')
  | (Raise e, t') => (HTTPException 500 ("Internal server error: " +:+ e), t')
  end.

(** [POST /chat]: the body is validated before [chat_endpoint] is called;
    a body that does not validate is answered with 422. *)
Definition post_chat `{Env} (uid session_id message : string)
    (chat_history : list Message) (t : list event)
  : reply ChatResponse * list event :=
  match new_ChatRequest uid session_id message chat_history with
  | Raise e => (HTTPException 422 e, t)
  | Ok request => chat_endpoint request t
  end.

(** The same state for another user id, and the same outcome of a stage
    for another user id. *)
Definition set_user_id (s : WorkflowState) (v : string) :=
  {| st_user_id := v; st_session_id := st_session_id s;
     st_message := st_message s; st_chat_history := st_chat_history s;
     st_user_info := st_user_info s;
     st_educational_context := st_educational_context s;
     st_intent := st_intent s;
     st_extracted_parameters := st_extracted_parameters s;
     st_api_response := st_api_response s;
     st_final_response := st_final_response s |}.

Definition with_user_id (v : string) (r : result WorkflowState * list event)
  : result WorkflowState * list event :=
  match r with
  | (Ok s, t) => (Ok (set_user_id s v), t)
  | (Raise e, t) => (Raise e, t)
  end.

(** ** [api_servers]: the adaptation rules of the tool services *)

Module ToolServer.

(** [class EducationalContext] of each service: the context as it arrives
    on the wire. *)
Record EducationalContext := {
  teaching_style : string;
  emotional_state : string;
  mastery_level : Z;
  inferred_difficulty : string
}.

(** [x in [...]] for strings *)
Definition str_in (x : string) (l : list string) : bool :=
  existsb (String.eqb x) l.

(** [d.get(key, dflt)] *)
Definition dict_get (d : gmap string value) (key : string) (dflt : value) : value :=
  default dflt (d !! key).

(** The count given to [min]: an [int] as it is ([True] and [False] are the
    integers 1 and 0), a string through [int], anything else and any string
    [int] rejects as [dflt].  [int_of_str s] is [int(s)], [None] when it
    raises [ValueError]. *)
Definition coerce_count (int_of_str : string -> option Z) (dflt : Z)
    (original_count : value) : Z :=
  match original_count with
  | VStr s => default dflt (int_of_str s)
  | VInt z => z
  | VBool b => Z.b2z b
  | VNone | VList _ | VDict _ => dflt
  end.

End ToolServer.

Module FlashcardServer.
Import ToolServer.

Definition _adapt_flashcard_count (int_of_str : string -> option Z)
    (original_count : value) (context : EducationalContext) : Z :=
  let original_count := coerce_count int_of_str 5 original_count in
  if str_in (emotional_state context) ["anxious"; "confused"; "tired"]
  then Z.min original_count 3
  else if String.eqb (emotional_state context) "focused"
          && (7 <=? mastery_level context)%Z
  then Z.min (original_count + 2) 20
  else Z.min original_count 10.

Definition difficulty_map : gmap string string :=
  <["low" := "easy"]>
    (<["medium" := "medium"]>
       (<["high" := "hard"]>
          (<["easy" := "easy"]>
             (<["hard" := "hard"]> ∅)))).

(** [original_difficulty.lower() if original_difficulty else "medium"]
    raises on a value that is true and not a string. *)
Definition _adapt_difficulty (original_difficulty : value)
    (context : EducationalContext) : result string :=
  match (if truthy original_difficulty
         then match original_difficulty with
              | VStr s => Ok (PyStr.lower s)
              | _ => Raise "object has no attribute 'lower'"
              end
         else Ok "medium") with
  | Raise e => Raise e
  | Ok key =>
      let normalized_difficulty := default "medium" (difficulty_map !! key) in
      if str_in (emotional_state context) ["anxious"; "confused"] then Ok "easy"
      else if (8 <=? mastery_level context)%Z
              && String.eqb (emotional_state context) "focused"
      then Ok "hard"
      else Ok normalized_difficulty
  end.

(** [_safe_extract_params]: [(count, topic, subject, difficulty)] *)
Definition _safe_extract_params (params : gmap string value)
  : value * value * value * value :=
  let count := dict_get params "count" (dict_get params "number" (VInt 5)) in
  let topic := dict_get params "topic" (dict_get params "subject" (VStr "general")) in
  let subject := dict_get params "subject" (dict_get params "topic" (VStr "general")) in
  let difficulty := dict_get params "difficulty" (VStr "medium") in
  (count, topic, subject, difficulty).

End FlashcardServer.

Module QuizServer.
Import ToolServer.

Definition difficulty_map : gmap string string :=
  <["beginner" := "easy"]>
    (<["intermediate" := "medium"]>
       (<["advanced" := "hard"]>
          (<["low" := "easy"]>
             (<["high" := "hard"]>
                (<["easy" := "easy"]>
                   (<["medium" := "medium"]>
                      (<["hard" := "hard"]> ∅))))))).

Definition _adapt_difficulty (original_difficulty : value)
    (context : EducationalContext) : string :=
  let normalized :=
    match original_difficulty with
    | VStr s => PyStr.lower s
    | _ => "medium"
    end in
  let mapped_difficulty := default "medium" (difficulty_map !! normalized) in
  if str_in (emotional_state context) ["anxious"; "confused"] then "easy"
  else if String.eqb (emotional_state context) "focused"
          && (7 <=? mastery_level context)%Z
  then "hard"
  else if (mastery_level context <=? 3)%Z then "easy"
  else if (8 <=? mastery_level context)%Z then "hard"
  else mapped_difficulty.

Definition type_map : gmap string string :=
  <["mcq" := "multiple_choice"]>
    (<["multiple_choice" := "multiple_choice"]>
       (<["true_false" := "true_false"]>
          (<["tf" := "true_false"]>
             (<["practice" := "practice"]>
                (<["open" := "practice"]>
                   (<["open_ended" := "practice"]> ∅)))))).

Definition _adapt_question_type (original_type : value)
    (context : EducationalContext) : string :=
  let normalized_type :=
    match original_type with
    | VStr s => PyStr.lower s
    | _ => "practice"
    end in
  let question_type := default "practice" (type_map !! normalized_type) in
  if str_in (emotional_state context) ["anxious"; "confused"]
  then "multiple_choice"
  else if String.eqb (teaching_style context) "socratic" then "practice"
  else question_type.

Definition _adapt_question_count (int_of_str : string -> option Z)
    (original_count : value) (context : EducationalContext) : Z :=
  let original_count := coerce_count int_of_str 10 original_count in
  if str_in (emotional_state context) ["anxious"; "tired"]
  then Z.min original_count 5
  else if String.eqb (emotional_state context) "focused"
          && (7 <=? mastery_level context)%Z
  then Z.min (original_count + 5) 20
  else Z.min original_count 15.

(** [_safe_extract_params]:
    [(topic, subject, difficulty, question_type, num_questions)] *)
Definition _safe_extract_params (params : gmap string value)
  : value * value * value * value * value :=
  let topic := dict_get params "topic" (dict_get params "subject" (VStr "general")) in
  let subject := dict_get params "subject" (dict_get params "topic" (VStr "general")) in
  let difficulty :=
    dict_get params "difficulty" (dict_get params "level" (VStr "intermediate")) in
  let question_type :=
    dict_get params "question_type"
      (dict_get params "type" (dict_get params "format" (VStr "practice"))) in
  let num_questions :=
    dict_get params "num_questions"
      (dict_get params "count" (dict_get params "number" (VInt 10))) in
  (topic, subject, difficulty, question_type, num_questions).

End QuizServer.

Module ConceptServer.
Import ToolServer.

Definition depth_map : gmap string string :=
  <["basic" := "basic"]>
    (<["beginner" := "basic"]>
       (<["simple" := "basic"]>
          (<["intermediate" := "intermediate"]>
             (<["medium" := "intermediate"]>
                (<["standard" := "intermediate"]>
                   (<["advanced" := "advanced"]>
                      (<["hard" := "advanced"]>
                         (<["expert" := "comprehensive"]>
                            (<["comprehensive" := "comprehensive"]>
                               (<["master" := "comprehensive"]> ∅)))))))))).

Definition depth_order : list string :=
  ["basic"; "intermediate"; "advanced"; "comprehensive"].

(** [l.index(x)]: [ValueError] when [x] is not in [l]. *)
Fixpoint list_index (x : string) (l : list string) : result Z :=
  match l with
  | [] => Raise "is not in list"
  | y :: rest =>
      if String.eqb y x then Ok 0%Z
      else match list_index x rest with
           | Ok i => Ok (i + 1)%Z
           | Raise e => Raise e
           end
  end.

(** [l[i]], with Python's negative indices. *)
Definition list_item (l : list string) (i : Z) : result string :=
  let n := Z.of_nat (List.length l) in
  let j := if (i <? 0)%Z then (i + n)%Z else i in
  if (j <? 0)%Z then Raise "list index out of range"
  else match l !! Z.to_nat j with
       | Some x => Ok x
       | None => Raise "list index out of range"
       end.

Definition _adapt_depth (requested_depth : value)
    (context : EducationalContext) : result string :=
  let normalized :=
    match requested_depth with
    | VStr s => PyStr.lower s
    | _ => "intermediate"
    end in
  let depth := default "intermediate" (depth_map !! normalized) in
  match list_index depth depth_order with
  | Raise e => Raise e
  | Ok current_index =>
      let last := (Z.of_nat (List.length depth_order) - 1)%Z in
      let current_index :=
        if str_in (emotional_state context) ["anxious"; "confused"; "tired"]
        then Z.max 0 (current_index - 1)
        else if String.eqb (emotional_state context) "focused"
                && (7 <=? mastery_level context)%Z
        then Z.min last (current_index + 1)
        else current_index in
      let current_index :=
        if (mastery_level context <=? 3)%Z then 0%Z
        else if (8 <=? mastery_level context)%Z
        then Z.min last (current_index + 1)
        else current_index in
      list_item depth_order current_index
  end.

(** [_safe_extract_params]: [(concept, topic, depth)] *)
Definition _safe_extract_params (params : gmap string value)
  : value * value * value :=
  let concept :=
    dict_get params "concept_to_explain"
      (dict_get params "concept" (dict_get params "topic" (VStr "general concept"))) in
  let topic :=
    dict_get params "current_topic"
      (dict_get params "subject" (dict_get params "topic" (VStr "general"))) in
  let depth :=
    dict_get params "desired_depth"
      (dict_get params "depth" (dict_get params "level" (VStr "intermediate"))) in
  (concept, topic, depth).

End ConceptServer.

(** What the services receive for a context of the workflow: the values of
    its enumerations. *)
Definition wire_context (ctx : EducationalContext) : ToolServer.EducationalContext :=
  {| ToolServer.teaching_style := TeachingStyle_value (teaching_style ctx);
     ToolServer.emotional_state := EmotionalState_value (emotional_state ctx);
     ToolServer.mastery_level := MasteryLevel_value (mastery_level ctx);
     ToolServer.inferred_difficulty := inferred_difficulty ctx |}.

(** * Properties *)

(** ** Strings and the matcher *)

Lemma rev_acc_rev_acc (s a b : string) :
  PyStr.rev_acc (PyStr.rev_acc s a) b = PyStr.rev_acc a (s +:+ b).
Proof.
  revert a b. induction s as [|c s IH]; intros a b; simpl; [done|].
  by rewrite IH.
Qed.

Lemma append_empty_r (s : string) : s +:+ "" = s.
Proof.
  induction s as [|c s IH]; [done|].
  change (String c s +:+ "") with (String c (s +:+ "")). by f_equal.
Qed.

Lemma rev_involutive (s : string) : PyStr.rev (PyStr.rev s) = s.
Proof.
  unfold PyStr.rev. rewrite rev_acc_rev_acc. simpl. apply append_empty_r.
Qed.

Lemma space_not_digit (c : ascii) :
  PyStr.is_space c = true -> PyStr.is_digit c = false.
Proof.
  destruct c as [[] [] [] [] [] [] [] []]; vm_compute; congruence.
Qed.

Lemma lit_startswith {R} (p : string) (k : string -> option R) (s : string) :
  Re.lit p k s =
  if PyStr.startswith p s then k (PyStr.drop (String.length p) s) else None.
Proof.
  revert s. induction p as [|a p IH]; intros s; simpl; [done|].
  destruct s as [|b s]; [done|].
  destruct (Ascii.eqb a b); simpl; [apply IH | done].
Qed.

(** When the rest of the pattern cannot start with a character of the
    class, giving characters back never helps: the star is a plain skip. *)
Lemma star_skip {R} (cls : ascii -> bool) (k : string -> option R) (s : string) :
  (forall c t, cls c = true -> k (String c t) = None) ->
  Re.star cls k s = k (PyStr.skip cls s).
Proof.
  intros Hk. induction s as [|c s IH]; simpl; [done|].
  destruct (cls c) eqn:Hc; [|done].
  rewrite IH. destruct (k (PyStr.skip cls s)) eqn:E; [done|].
  by apply Hk.
Qed.

Lemma group_more_greedy (cls : ascii -> bool) (acc s : string) :
  Re.group_more cls acc (fun g _ => Some g) s
  = Some (PyStr.rev (PyStr.rev_acc (PyStr.take cls s) acc)).
Proof.
  revert acc. induction s as [|c s IH]; intros acc; simpl; [done|].
  destruct (cls c); simpl; [|done].
  by rewrite IH.
Qed.

Lemma group_plus_take (cls : ascii -> bool) (s : string) :
  Re.group_plus cls (fun g _ => Some g) s =
  match PyStr.take cls s with
  | EmptyString => None
  | digits => Some digits
  end.
Proof.
  destruct s as [|c s]; simpl; [done|].
  destruct (cls c) eqn:Hc; [|done].
  rewrite group_more_greedy.
  change (PyStr.rev_acc (PyStr.take cls s) (String c ""))
    with (PyStr.rev_acc (String c (PyStr.take cls s)) "").
  fold (PyStr.rev (String c (PyStr.take cls s))).
  by rewrite rev_involutive.
Qed.

Lemma level_pattern_here (s : string) : level_pattern s = level_N_here s.
Proof.
  unfold level_pattern, level_N_here.
  rewrite lit_startswith.
  destruct (PyStr.startswith "Level" s); [|done].
  rewrite star_skip.
  - apply group_plus_take.
  - intros c t Hc. simpl. by rewrite (space_not_digit c Hc).
Qed.

Lemma search_ext {R} (m m' : string -> option R) (s : string) :
  (forall t, m t = m' t) -> Re.search m s = Re.search m' s.
Proof.
  intros Hm. induction s as [|c s IH]; simpl; rewrite Hm; [done|].
  by rewrite IH.
Qed.

Lemma search_level_N_here (s : string) : Re.search level_N_here s = level_N s.
Proof.
  induction s as [|c s IH]; [done|].
  change (match level_N_here (String c s) with
          | Some r => Some r
          | None => Re.search level_N_here s
          end
          = match level_N_here (String c s) with
            | Some d => Some d
            | None => level_N s
            end).
  by rewrite IH.
Qed.

(** The search of the code finds what the specification describes. *)
Lemma search_level_N (s : string) : Re.search level_pattern s = level_N s.
Proof.
  rewrite <- search_level_N_here. apply search_ext, level_pattern_here.
Qed.

Lemma int_of_digits_short (digits : string) :
  (String.length digits <=? PyStr.max_str_digits)%nat = true ->
  PyStr.int_of_digits digits = Ok (PyStr.digits_value digits).
Proof.
  intros Hl. unfold PyStr.int_of_digits.
  by rewrite Nat.ltb_antisym, Hl.
Qed.

Lemma int_of_digits_long (digits : string) :
  (String.length digits <=? PyStr.max_str_digits)%nat = false ->
  exists e, PyStr.int_of_digits digits = Raise e.
Proof.
  intros Hl. unfold PyStr.int_of_digits.
  rewrite Nat.ltb_antisym, Hl. by eexists.
Qed.

Lemma mastery_of_summary_parsed (summary : string) :
  level_converts summary = true ->
  mastery_of_summary summary = Ok (parsed_mastery summary).
Proof.
  unfold mastery_of_summary, parsed_mastery, level_converts.
  rewrite search_level_N.
  destruct (level_N summary) as [digits|]; [|done].
  apply int_of_digits_short.
Qed.

Lemma mastery_of_summary_raises (summary : string) :
  level_converts summary = false ->
  exists e, mastery_of_summary summary = Raise e.
Proof.
  unfold mastery_of_summary, level_converts. rewrite search_level_N.
  destruct (level_N summary) as [digits|]; [|done].
  apply int_of_digits_long.
Qed.

(** What the pattern finds, said without the search: the text is some
    prefix, then [Level], white space, the digits found and a rest that
    does not go on with a digit; and no earlier position matches. *)
Lemma take_all (cls : ascii -> bool) (s : string) :
  PyStr.all cls (PyStr.take cls s) = true.
Proof.
  induction s as [|c s IH]; simpl; [done|].
  destruct (cls c) eqn:Hc; simpl; [|done]. by rewrite Hc.
Qed.

Lemma take_skip (cls : ascii -> bool) (s : string) :
  PyStr.take cls s +:+ PyStr.skip cls s = s.
Proof.
  induction s as [|c s IH]; simpl; [done|].
  destruct (cls c); [|done].
  change (String c (PyStr.take cls s +:+ PyStr.skip cls s) = String c s).
  by rewrite IH.
Qed.

Lemma skip_stops (cls : ascii -> bool) (s : string) :
  match PyStr.skip cls s with
  | String c _ => cls c = false
  | EmptyString => True
  end.
Proof.
  induction s as [|c s IH]; simpl; [done|].
  destruct (cls c) eqn:Hc; [exact IH | exact Hc].
Qed.

Lemma startswith_drop (p s : string) :
  PyStr.startswith p s = true -> s = p +:+ PyStr.drop (String.length p) s.
Proof.
  revert s. induction p as [|a p IH]; intros s; simpl; [done|].
  destruct s as [|b s]; [done|].
  destruct (Ascii.eqb_spec a b) as [->|]; simpl; [|done].
  intros Hp. change (String b s = String b (p +:+ PyStr.drop (String.length p) s)).
  by rewrite <- IH.
Qed.

Lemma level_N_here_sound (s digits : string) :
  level_N_here s = Some digits ->
  let rest := PyStr.skip PyStr.is_digit (PyStr.skip PyStr.is_space (PyStr.drop 5 s)) in
  s = "Level" +:+ PyStr.take PyStr.is_space (PyStr.drop 5 s) +:+ digits +:+ rest
  /\ PyStr.all PyStr.is_space (PyStr.take PyStr.is_space (PyStr.drop 5 s)) = true
  /\ PyStr.all PyStr.is_digit digits = true
  /\ digits <> ""
  /\ match rest with
     | String c _ => PyStr.is_digit c = false
     | EmptyString => True
     end.
Proof.
  unfold level_N_here. intros Hm. cbv zeta.
  destruct (PyStr.startswith "Level" s) eqn:Hp; [|done].
  apply startswith_drop in Hp. change (String.length "Level") with 5%nat in Hp.
  set (r := PyStr.drop 5 s) in *.
  assert (PyStr.take PyStr.is_digit (PyStr.skip PyStr.is_space r) = digits
          /\ digits <> "") as [Hd Hne].
  { destruct (PyStr.take PyStr.is_digit (PyStr.skip PyStr.is_space r));
      [done|]. injection Hm as <-. done. }
  split; [|split; [|split; [|split]]].
  - rewrite <- Hd, take_skip, take_skip. exact Hp.
  - apply take_all.
  - rewrite <- Hd. apply take_all.
  - exact Hne.
  - apply skip_stops.
Qed.

Lemma level_N_leftmost (s digits : string) :
  level_N s = Some digits ->
  exists pre s',
    s = pre +:+ s'
    /\ level_N_here s' = Some digits
    /\ forall k, (k < String.length pre)%nat ->
         level_N_here (PyStr.drop k s) = None.
Proof.
  induction s as [|c s IH].
  - done.
  - change (level_N (String c s))
      with (match level_N_here (String c s) with
            | Some d => Some d
            | None => level_N s
            end).
    destruct (level_N_here (String c s)) eqn:E.
    + intros [= ->]. exists "", (String c s). split; [done|]. split; [done|].
      simpl. intros k Hk. lia.
    + intros (pre & s' & -> & Hh & Hl)%IH.
      exists (String c pre), s'. split; [done|]. split; [done|].
      intros [|k] Hk; [exact E|]. simpl in Hk. apply Hl. lia.
Qed.

Lemma level_N_absent (s : string) :
  (forall k, level_N_here (PyStr.drop k s) = None) -> parsed_mastery s = 1%Z.
Proof.
  intros Hn. unfold parsed_mastery.
  assert (level_N s = None) as ->; [|done].
  induction s as [|c s IH].
  - done.
  - change (level_N (String c s))
      with (match level_N_here (String c s) with
            | Some d => Some d
            | None => level_N s
            end).
    pose proof (Hn 0%nat) as H0. simpl PyStr.drop in H0. rewrite H0.
    apply IH. intros k. apply (Hn (S k)).
Qed.

Lemma any_in_true (words : list string) (w s : string) :
  w ∈ words -> PyStr.contains w s = true -> PyStr.any_in words s = true.
Proof.
  intros Hin Hc. unfold PyStr.any_in. apply existsb_exists.
  exists w. split; [by apply list_elem_of_In | done].
Qed.

(** ** Context inference *)

Lemma infer_difficulty_parsed (mastery_summary : string) (es : EmotionalState) :
  level_converts mastery_summary = true ->
  _infer_difficulty mastery_summary es
  = Ok (difficulty_rule (parsed_mastery mastery_summary) es).
Proof.
  intros Hc. unfold _infer_difficulty.
  rewrite (mastery_of_summary_parsed _ Hc). by destruct es.
Qed.

Lemma infer_difficulty_raises (mastery_summary : string) (es : EmotionalState) :
  level_converts mastery_summary = false ->
  exists e, _infer_difficulty mastery_summary es = Raise e.
Proof.
  intros Hc. unfold _infer_difficulty.
  destruct (mastery_of_summary_raises _ Hc) as [e ->]. by eexists.
Qed.

(** C1, as the code has it: [_infer_difficulty] converts the level with
    [int] before it looks at the emotional state.  For every mastery
    summary in which the [Level N] pattern is absent, or finds at most 4300
    digits, and every emotional state, it returns the difficulty of the
    rule on the level parsed (1 when absent): easy for anxious, confused
    and tired; hard for focused and a level of at least 7; medium in every
    other case.  For every summary in which the pattern finds more than
    4300 digits it raises, whatever the emotional state. *)
Theorem infer_difficulty_rule (mastery_summary : string) (es : EmotionalState) :
  (level_converts mastery_summary = true ->
   _infer_difficulty mastery_summary es
   = Ok (difficulty_rule (parsed_mastery mastery_summary) es))
  /\ (level_converts mastery_summary = false ->
      exists e, _infer_difficulty mastery_summary es = Raise e).
Proof.
  unfold _infer_difficulty, mastery_of_summary, parsed_mastery, level_converts.
  rewrite search_level_N.
  destruct (level_N mastery_summary) as [digits|].
  - unfold PyStr.int_of_digits. rewrite Nat.ltb_antisym.
    destruct (String.length digits <=? PyStr.max_str_digits)%nat;
      cbn [negb]; split; intros Hc; try discriminate.
    + by destruct es.
    + by eexists.
  - split; intros Hc; try discriminate. by destruct es.
Qed.

(** C1 as stated fails: on the summary "Level " followed by 4301 sevens the
    rule of the claim gives hard for a focused student (the level is at
    least 7) and easy for an anxious one, while [_infer_difficulty] returns
    no difficulty at all: [int] raises [ValueError]. *)
Lemma infer_difficulty_raises_on_long_level :
  difficulty_rule (parsed_mastery long_level_summary) FOCUSED = "hard"
  /\ difficulty_rule (parsed_mastery long_level_summary) TIRED = "easy"
  /\ _infer_difficulty long_level_summary FOCUSED
     = Raise "Exceeds the limit (4300 digits) for integer string conversion: value has 4301 digits; use sys.set_int_max_str_digits() to increase the limit"
  /\ _infer_difficulty long_level_summary TIRED
     = Raise "Exceeds the limit (4300 digits) for integer string conversion: value has 4301 digits; use sys.set_int_max_str_digits() to increase the limit".
Proof. repeat split; vm_compute; reflexivity. Qed.

(** C3: a message whose lowercased text contains "confused" or
    "don't understand" is inferred as confused, whatever the summary of the
    profile says. *)
Theorem confused_markers_win (message current_state : string) :
  PyStr.contains "confused" (PyStr.lower message) = true
  \/ PyStr.contains "don't understand" (PyStr.lower message) = true ->
  _infer_emotional_state message current_state = CONFUSED.
Proof.
  intros Hm. unfold _infer_emotional_state.
  assert (PyStr.any_in confused_markers (PyStr.lower message) = true) as ->; [|done].
  destruct Hm as [Hm | Hm]; eapply any_in_true; try exact Hm;
    unfold confused_markers; set_solver.
Qed.

Lemma confused_markers_win_witness :
  _infer_emotional_state "I DON'T UNDERSTAND this, sorry"
    "Focused and motivated to improve" = CONFUSED.
Proof.
  apply confused_markers_win. right. vm_compute. reflexivity.
Defined.



Lemma difficulty_rule_pattern (mastery : Z) (es : EmotionalState) :
  difficulty_pattern (difficulty_rule mastery es) = true.
Proof. destruct es; simpl; try done. by destruct (7 <=? mastery)%Z. Qed.

Lemma fallback_context_ok `{Env} : fallback_context = Ok safe_default_context.
Proof. reflexivity. Qed.

(** The stage as a function of the state: it writes the context of the
    contract and touches neither another field nor the outside. *)
Lemma analyze_educational_context_infer `{Env} (state : WorkflowState)
    (t : list event) :
  analyze_educational_context state t
  = (Ok (set_educational_context state
           (Some (infer (st_message state) (st_user_info state)
                    (st_user_id state)))), t).
Proof.
  unfold analyze_educational_context, try_except,
    analyze_educational_context_try, infer, bind, attr_of, lift, ret, raise.
  destruct (st_user_info state) as [ui|]; [|done].
  destruct (level_converts (ui_mastery_level_summary ui)) eqn:Hc.
  - rewrite (infer_difficulty_parsed _ _ Hc).
    destruct (db_get_user_profile (st_user_id state)) as [[p|]|e]; try done.
    unfold new_EducationalContext.
    change (TeachingStyle_value DIRECT) with "direct".
    change (MasteryLevel_value LEVEL_1) with 1%Z.
    destruct (TeachingStyle_of _) as [ts|e]; [|done].
    destruct (MasteryLevel_of _) as [ml|e]; [|done].
    rewrite difficulty_rule_pattern. done.
  - destruct (infer_difficulty_raises _
                (_infer_emotional_state (st_message state)
                   (ui_emotional_state_summary ui)) Hc) as [e ->].
    by destruct (db_get_user_profile (st_user_id state)) as [[p|]|e'].
Qed.

Lemma analyze_educational_context_try_trace `{Env} (state : WorkflowState)
    (t : list event) :
  (analyze_educational_context_try state t).2 = t.
Proof.
  unfold analyze_educational_context_try, bind, attr_of, lift, ret, raise.
  destruct (st_user_info state) as [ui|]; [|done].
  destruct (_infer_difficulty _ _) as [d|e]; [|done].
  destruct (db_get_user_profile (st_user_id state)) as [[p|]|e]; try done.
  by destruct (new_EducationalContext _ _ _ _).
Qed.

Lemma infer_default_on_error `{Env} (state : WorkflowState) (t : list event) :
  is_ok (analyze_educational_context_try state t).1 = false ->
  infer (st_message state) (st_user_info state) (st_user_id state)
  = safe_default_context.
Proof.
  unfold analyze_educational_context_try, infer, bind, attr_of, lift, ret, raise.
  destruct (st_user_info state) as [ui|]; [|done].
  destruct (level_converts (ui_mastery_level_summary ui)) eqn:Hc.
  - rewrite (infer_difficulty_parsed _ _ Hc).
    destruct (db_get_user_profile (st_user_id state)) as [[p|]|e]; try done.
    unfold new_EducationalContext.
    change (TeachingStyle_value DIRECT) with "direct".
    change (MasteryLevel_value LEVEL_1) with 1%Z.
    destruct (TeachingStyle_of _) as [ts|e]; [|done].
    destruct (MasteryLevel_of _) as [ml|e]; [|done].
    rewrite difficulty_rule_pattern. done.
  - by destruct (db_get_user_profile (st_user_id state)) as [[p|]|e'].
Qed.


(** C2: for every input state, [analyze_educational_context] returns
    without raising, with an educational context in the state whose four
    fields are values of their types; whenever its [try] block raises (a
    missing user, a failing or empty profile lookup, a profile value that
    does not validate) that context is exactly the safe default: direct,
    focused, level 1, medium. *)
Theorem educational_context_always_populated `{Env} (state : WorkflowState)
    (t : list event) :
  exists ctx : EducationalContext,
    analyze_educational_context state t
    = (Ok (set_educational_context state (Some ctx)), t)
    /\ difficulty_pattern (inferred_difficulty ctx) = true
    /\ (is_ok (analyze_educational_context_try state t).1 = false ->
        ctx = safe_default_context)
    /\ ((exists e, db_get_user_profile (st_user_id state) = Raise e) ->
        ctx = safe_default_context)
    /\ (st_user_info state = None -> ctx = safe_default_context).
Proof.
  exists (infer (st_message state) (st_user_info state) (st_user_id state)).
  split; [apply analyze_educational_context_infer|].
  split.
  { unfold infer. destruct (st_user_info state) as [ui|]; [|done].
    destruct (db_get_user_profile _) as [[p|]|e]; try done.
    destruct (level_converts _); [|done].
    destruct (TeachingStyle_of _); [|done].
    destruct (MasteryLevel_of _); [|done].
    apply difficulty_rule_pattern. }
  split; [apply infer_default_on_error|].
  split.
  - intros [e He]. unfold infer. rewrite He.
    by destruct (st_user_info state).
  - intros Hn. unfold infer. by rewrite Hn.
Qed.

(** C8: context inference is a function of the message and the profile
    (the user's summaries in the state and the record in the store): the
    stage returns the same educational context when run again on its own
    result, or on any state and at any point of the trace with the same
    message, user information and user id; it changes no other field of
    the state and adds nothing to the trace. *)
Theorem context_inference_deterministic `{Env} (state : WorkflowState)
    (t : list event) :
  exists ctx : EducationalContext,
    let state' := set_educational_context state (Some ctx) in
    analyze_educational_context state t = (Ok state', t)
    /\ analyze_educational_context state' t = (Ok state', t)
    /\ forall (state2 : WorkflowState) (t2 : list event),
         st_message state2 = st_message state ->
         st_user_info state2 = st_user_info state ->
         st_user_id state2 = st_user_id state ->
         analyze_educational_context state2 t2
         = (Ok (set_educational_context state2 (Some ctx)), t2).
Proof.
  exists (infer (st_message state) (st_user_info state) (st_user_id state)).
  cbv zeta. split; [apply analyze_educational_context_infer|].
  split.
  - rewrite analyze_educational_context_infer. reflexivity.
  - intros state2 t2 Hm Hu Hi.
    rewrite analyze_educational_context_infer. by rewrite Hm, Hu, Hi.
Qed.

(** ** Intent classification *)

Lemma format_prompt_trace `{Env} (tpl : PromptTemplate) (state : WorkflowState)
    (t : list event) :
  (format_prompt tpl state t).2 = t.
Proof.
  unfold format_prompt, bind, attr_of, ret, raise.
  destruct (st_user_info state); [|done].
  by destruct (st_educational_context state).
Qed.

Lemma keywords_unknown (message : string) :
  PyStr.any_in ["flashcard"; "memorize"; "cards"; "practice terms"; "drill"]
    (PyStr.lower message) = false ->
  PyStr.any_in ["note"; "notes"; "summary"; "outline"; "write"]
    (PyStr.lower message) = false ->
  PyStr.any_in ["explain"; "concept"; "understand"; "what is"; "how does";
                "tell me about"] (PyStr.lower message) = false ->
  PyStr.any_in ["quiz"; "practice"; "questions"; "test"; "problems";
                "exercises"] (PyStr.lower message) = false ->
  _analyze_intent_keywords message = UNKNOWN.
Proof.
  intros H1 H2 H3 H4. unfold _analyze_intent_keywords.
  by rewrite H1, H2, H3, H4.
Qed.

(** C7: for every state and every behaviour of the model,
    [analyze_intent] returns without raising and sets an intent; when no
    reply arrives (the model call raises) or no keyword of the ordered
    table matches the reply, the intent is what the keyword classifier
    gives on the message; and the keyword classifier gives UNKNOWN when
    none of its word lists matches. *)
Theorem analyze_intent_never_raises `{Env} (state : WorkflowState)
    (t : list event) :
  exists (intent : ToolIntent) (t' : list event),
    analyze_intent state t = (Ok (set_intent state (Some intent)), t')
    /\ ((forall reply, model_reply (Ok INTENT_ANALYSIS_PROMPT) state t = Ok reply ->
           first_keyword intent_map (PyStr.lower (PyStr.strip reply)) = None) ->
        intent = _analyze_intent_keywords (st_message state))
    /\ (forall reply found,
          model_reply (Ok INTENT_ANALYSIS_PROMPT) state t = Ok reply ->
          first_keyword intent_map (PyStr.lower (PyStr.strip reply)) = Some found ->
          intent = found)
    /\ (PyStr.any_in ["flashcard"; "memorize"; "cards"; "practice terms"; "drill"]
          (PyStr.lower (st_message state)) = false ->
        PyStr.any_in ["note"; "notes"; "summary"; "outline"; "write"]
          (PyStr.lower (st_message state)) = false ->
        PyStr.any_in ["explain"; "concept"; "understand"; "what is"; "how does";
                      "tell me about"] (PyStr.lower (st_message state)) = false ->
        PyStr.any_in ["quiz"; "practice"; "questions"; "test"; "problems";
                      "exercises"] (PyStr.lower (st_message state)) = false ->
        _analyze_intent_keywords (st_message state) = UNKNOWN).
Proof.
  unfold analyze_intent, try_except, analyze_intent_try, model_reply, bind.
  pose proof (format_prompt_trace INTENT_ANALYSIS_PROMPT state t) as Ht.
  destruct (format_prompt INTENT_ANALYSIS_PROMPT state t) as [[p|e] t1];
    simpl in Ht; subst t1.
  - unfold ainvoke. destruct (llm_ainvoke t p) as [reply|e].
    + destruct (first_keyword intent_map (PyStr.lower (PyStr.strip reply)))
        as [found|] eqn:Hk.
      * eexists found, _. split; [reflexivity|].
        split; [|split].
        -- intros Hn. specialize (Hn reply eq_refl). congruence.
        -- intros reply' found' [= <-] Hk'. congruence.
        -- apply keywords_unknown.
      * eexists _, _. split; [reflexivity|].
        split; [done|]. split.
        -- intros reply' found' [= <-] Hk'. congruence.
        -- apply keywords_unknown.
    + eexists _, _. split; [reflexivity|].
      split; [done|]. split; [done|]. apply keywords_unknown.
  - eexists _, _. split; [reflexivity|].
    split; [done|]. split; [done|]. apply keywords_unknown.
Qed.

(** ** Parameter extraction *)

Lemma quiz_fallback_eq `{Env} : _get_fallback_params "quiz_generator" = quiz_fallback.
Proof. vm_compute. reflexivity. Qed.

Lemma fallback_params_complete `{Env} (tool : ToolIntent) :
  tool <> UNKNOWN ->
  params_model tool (_get_fallback_params (ToolIntent_value tool)) = true
  /\ dom (_get_fallback_params (ToolIntent_value tool)) = params_fields tool.
Proof.
  intros Hu. destruct tool; try done; split; vm_compute; reflexivity.
Qed.

(** C4: for every tool name and state, when no reply of the model arrives
    (the call raises, or the prompt cannot be built) or the reply, with its
    code fence stripped, fails to parse as JSON, [_extract_parameters]
    returns without raising and sets [extracted_parameters] to the fixed
    fallback dictionary of the tool; the fallback of [quiz_generator] is
    topic "general", subject "general", difficulty "intermediate",
    question_type "practice", num_questions 10; and for each of the four
    tools the fallback is a dictionary with every field of the tool's
    parameter model, accepted by that model. *)
Theorem extract_parameters_fallback `{Env} (tool_name : string)
    (state : WorkflowState) (t : list event) :
  (exists e,
     model_reply (getitem PARAMETER_EXTRACTION_PROMPTS tool_name) state t
     = Raise e)
  \/ (exists reply e,
        model_reply (getitem PARAMETER_EXTRACTION_PROMPTS tool_name) state t
        = Ok reply
        /\ json_loads (clean_json_response (PyStr.strip reply)) = Raise e) ->
  (exists t',
     _extract_parameters tool_name state t
     = (Ok (set_extracted_parameters state
              (VDict (_get_fallback_params tool_name))), t'))
  /\ _get_fallback_params "quiz_generator" = quiz_fallback
  /\ (forall tool, tool <> UNKNOWN -> tool_name = ToolIntent_value tool ->
        params_model tool (_get_fallback_params tool_name) = true
        /\ dom (_get_fallback_params tool_name) = params_fields tool).
Proof.
  intros Hfail. split; [|split].
  - unfold _extract_parameters, try_except, _extract_parameters_try,
      model_reply, bind, lift in *.
    destruct (getitem PARAMETER_EXTRACTION_PROMPTS tool_name) as [tpl|e0];
      [|by eexists].
    pose proof (format_prompt_trace tpl state t) as Ht.
    destruct (format_prompt tpl state t) as [[p|e1] t1]; simpl in Ht; subst t1;
      [|by eexists].
    unfold ainvoke.
    destruct (llm_ainvoke t p) as [reply|e2]; [|by eexists].
    destruct (json_loads (clean_json_response (PyStr.strip reply)))
      as [params|e3] eqn:Hj; [|by eexists].
    destruct Hfail as [[e He] | (reply' & e & Hr & He)]; [done|].
    injection Hr as <-. congruence.
  - apply quiz_fallback_eq.
  - intros tool Hu ->. by apply fallback_params_complete.
Qed.

Lemma extract_parameters_fallback_witness :
  let E := scripted_env (Ok "```json
{topic: photosynthesis,
```") (Raise "All connection attempts failed") no_json in
  let state :=
    set_educational_context
      (set_user_info (initial_state "student123" "s1" "quiz me" [])
         (Some {| ui_user_id := "student123"; ui_name := "Charlie";
                  ui_grade_level := "8";
                  ui_learning_style_summary := "Kinesthetic learner";
                  ui_emotional_state_summary := "Focused and motivated";
                  ui_mastery_level_summary := "Level 6" |}))
      (Some safe_default_context) in
  (exists t',
     _extract_parameters "quiz_generator" state []
     = (Ok (set_extracted_parameters state
              (VDict (_get_fallback_params "quiz_generator"))), t'))
  /\ _get_fallback_params "quiz_generator" = quiz_fallback
  /\ (forall tool, tool <> UNKNOWN -> "quiz_generator" = ToolIntent_value tool ->
        params_model tool (_get_fallback_params "quiz_generator") = true
        /\ dom (_get_fallback_params "quiz_generator") = params_fields tool).
Proof.
  intros E state.
  apply (@extract_parameters_fallback E "quiz_generator" state []).
  right. exists "```json
{topic: photosynthesis,
```", "Expecting value: line 1 column 1 (char 0)".
  split; vm_compute; reflexivity.
Defined.

(** A reply that parses is stored as it is, whatever JSON value it is. *)
Lemma extract_parameters_parsed `{Env} (tool_name reply : string)
    (state : WorkflowState) (t : list event) (params : value) :
  model_reply (getitem PARAMETER_EXTRACTION_PROMPTS tool_name) state t = Ok reply ->
  json_loads (clean_json_response (PyStr.strip reply)) = Ok params ->
  exists t',
    _extract_parameters tool_name state t
    = (Ok (set_extracted_parameters state params), t').
Proof.
  unfold _extract_parameters, try_except, _extract_parameters_try,
    model_reply, bind, lift.
  destruct (getitem PARAMETER_EXTRACTION_PROMPTS tool_name) as [tpl|e0]; [|done].
  pose proof (format_prompt_trace tpl state t) as Ht.
  destruct (format_prompt tpl state t) as [[p|e1] t1]; simpl in Ht; subst t1;
    [|done].
  unfold ainvoke. intros -> ->. by eexists.
Qed.

(** ** Dispatch and formatting *)

Lemma failure_truthy (msg : string) : truthy (failure msg) = true.
Proof. reflexivity. Qed.

Lemma failure_success (msg : string) :
  value_get (failure msg) "success" VNone = Ok (VBool false).
Proof. reflexivity. Qed.

Lemma failure_error (msg : string) :
  value_get (failure msg) "error" (VStr "Unknown error") = Ok (VStr msg).
Proof. reflexivity. Qed.

(** A failed dispatch is reported with the fixed template. *)
Lemma format_response_failure `{Env} (state : WorkflowState) (msg : string) :
  st_intent state <> Some UNKNOWN ->
  st_api_response state = failure msg ->
  format_response state
  = Ok (set_final_response state (Some (issue_message msg))).
Proof.
  intros Hi Ha. unfold format_response.
  rewrite bool_decide_eq_false_2 by done.
  rewrite Ha, failure_truthy, failure_success, failure_error. reflexivity.
Qed.

Lemma tool_mapping_known (i : ToolIntent) :
  i <> UNKNOWN -> exists api_url, tool_mapping (Some i) = Some api_url
                                  /\ truthy (VStr api_url) = true.
Proof. destruct i; try done; intros _; eexists; split; reflexivity. Qed.

(** C6, as the code has it: for every state whose intent is one of the
    four tools, [dispatch_to_api] returns without raising and sets
    [api_response].  When the request of the tool can be built it sends
    exactly one POST, to the [/invoke] endpoint of the tool and with a
    time-out of 60 seconds, and [api_response] is: the decoded body when
    the answer has status 200 and its body decodes; success false with the
    error "Connection error: <message>" when the answer has status 200 and
    its body does not decode, and when the POST raises; success false with
    the error "API server error: <status>" when the answer has another
    status.  When the request cannot be built it sends nothing and
    [api_response] is success false with "Connection error: <message>".
    Every such failure is given by [format_response] as "I encountered an
    issue while processing your request: <error>. Please try again.". *)
Theorem dispatch_outcomes `{Env} (state : WorkflowState) (t : list event)
    (i : ToolIntent) :
  st_intent state = Some i -> i <> UNKNOWN ->
  (exists api_url,
     tool_mapping (Some i) = Some api_url
     /\ match new_APIRequest (ToolIntent_value i) (st_user_info state)
                (st_chat_history state) (st_extracted_parameters state)
                (st_educational_context state) with
        | Ok req =>
            let url := api_url +:+ "/invoke" in
            dispatch_to_api state t
            = (Ok (set_api_response state
                     match client_post t url req 60 with
                     | Ok resp =>
                         if (status_code resp =? 200)%Z
                         then match json resp with
                              | Ok body => body
                              | Raise e => failure ("Connection error: " +:+ e)
                              end
                         else failure ("API server error: "
                                       +:+ PyStr.str_of_int (status_code resp))
                     | Raise e => failure ("Connection error: " +:+ e)
                     end),
               (t ++ [HttpPost url req 60])%list)
        | Raise e =>
            dispatch_to_api state t
            = (Ok (set_api_response state
                     (failure ("Connection error: " +:+ e))), t)
        end)
  /\ forall error,
       format_response (set_api_response state (failure error))
       = Ok (set_final_response (set_api_response state (failure error))
               (Some (issue_message error))).
Proof.
  intros Hi Hu. split.
  - destruct (tool_mapping_known i Hu) as (api_url & Hm & Htr).
    exists api_url. split; [exact Hm|].
    unfold dispatch_to_api.
    rewrite bool_decide_eq_false_2 by (rewrite Hi; congruence).
    unfold try_except, dispatch_to_api_try. rewrite Hi, Hm, Htr.
    cbn [negb]. unfold bind, attr_of, ret, lift, post. cbv beta iota.
    destruct (new_APIRequest _ _ _ _ _) as [req|e0]; cbv beta iota zeta;
      [|reflexivity].
    destruct (client_post t (api_url +:+ "/invoke") req 60) as [resp|e1];
      cbv beta iota; [|reflexivity].
    destruct (status_code resp =? 200)%Z; cbv beta iota; [|reflexivity].
    by destruct (json resp) as [body|e2].
  - intros error. apply format_response_failure; simpl; [|done].
    rewrite Hi. congruence.
Qed.

Lemma dispatch_outcomes_witness :
  let E := scripted_env (Ok "quiz_generator")
             (Ok {| status_code := 503; json := Raise "Expecting value" |})
             no_json in
  st_intent quiz_dispatch_state = Some QUIZ_GENERATOR
  /\ QUIZ_GENERATOR <> UNKNOWN
  /\ dispatch_to_api quiz_dispatch_state []
     = (Ok (set_api_response quiz_dispatch_state
              (failure "API server error: 503")),
        [HttpPost "http://localhost:8004/invoke" quiz_dispatch_request 60])
  /\ format_response
       (set_api_response quiz_dispatch_state (failure "API server error: 503"))
     = Ok (set_final_response
             (set_api_response quiz_dispatch_state
                (failure "API server error: 503"))
             (Some "I encountered an issue while processing your request: API server error: 503. Please try again.")).
Proof.
  intros E.
  split; [reflexivity|]. split; [discriminate|].
  destruct (@dispatch_outcomes E quiz_dispatch_state [] QUIZ_GENERATOR eq_refl
              ltac:(discriminate)) as [(api_url & Hm & Hd) Hf].
  injection Hm as <-.
  split; [exact Hd | exact (Hf "API server error: 503")].
Defined.

(** C6 as stated fails: the quiz service answers the one POST with status
    200 and a body that is no JSON document.  No exception comes from the
    network, the status is 200, and [api_response] is not the body of the
    response but success false with "Connection error: <message>", which
    [format_response] reports as an issue. *)
Lemma dispatch_200_undecodable_body :
  let resp := {| status_code := 200;
                 json := Raise "Expecting value: line 1 column 1 (char 0)" |} in
  let E := scripted_env (Ok "quiz_generator") (Ok resp) no_json in
  let url := "http://localhost:8004/invoke" in
  let v := failure "Connection error: Expecting value: line 1 column 1 (char 0)" in
  st_intent quiz_dispatch_state = Some QUIZ_GENERATOR
  /\ client_post [] url quiz_dispatch_request 60 = Ok resp
  /\ status_code resp = 200%Z
  /\ dispatch_to_api quiz_dispatch_state []
     = (Ok (set_api_response quiz_dispatch_state v),
        [HttpPost url quiz_dispatch_request 60])
  /\ json resp <> Ok v
  /\ format_response (set_api_response quiz_dispatch_state v)
     = Ok (set_final_response (set_api_response quiz_dispatch_state v)
             (Some "I encountered an issue while processing your request: Connection error: Expecting value: line 1 column 1 (char 0). Please try again.")).
Proof.
  intros resp E url v.
  split; [reflexivity|]. split; [reflexivity|]. split; [reflexivity|].
  split; [vm_compute; reflexivity|].
  split; [discriminate|].
  vm_compute. reflexivity.
Qed.

(** ** The graph *)

Lemma run_from_S `{Env} (limit : nat) (n : Node) (state : WorkflowState)
    (t : list event) :
  run_from (S limit) n state t =
  match node_action n state t with
  | (Ok state', t') =>
      match next_node n state' with
      | Ok END => (Ok state', t')
      | Ok (To n') => run_from limit n' state' t'
      | Raise e => (Raise e, t')
      end
  | (Raise e, t') => (Raise e, t')
  end.
Proof.
  simpl. unfold bind, lift.
  destruct (node_action n state t) as [[state'|e] t']; [|done].
  by destruct (next_node n state') as [[n'|]|e].
Qed.

Lemma retrieve_state_frame `{Env} (state state1 : WorkflowState)
    (t t1 : list event) :
  retrieve_state state t = (Ok state1, t1) ->
  t1 = t
  /\ st_api_response state1 = st_api_response state
  /\ st_intent state1 = st_intent state.
Proof.
  unfold retrieve_state, bind, lift, ret.
  destruct (db_get_user_profile (st_user_id state)) as [[p|]|e]; [| |done].
  - destruct (new_UserInfo _ _ _ _ _ _) as [ui|e]; [|done].
    by intros [= <- <-].
  - by intros [= <- <-].
Qed.

Lemma analyze_intent_shape `{Env} (state : WorkflowState) (t : list event) :
  exists (intent : ToolIntent) (t' : list event),
    analyze_intent state t = (Ok (set_intent state (Some intent)), t')
    /\ posts t' = posts t.
Proof.
  unfold analyze_intent, try_except, analyze_intent_try, bind.
  pose proof (format_prompt_trace INTENT_ANALYSIS_PROMPT state t) as Ht.
  destruct (format_prompt INTENT_ANALYSIS_PROMPT state t) as [[p|e] t1];
    simpl in Ht; subst t1; [|by eexists _, _].
  assert (posts (t ++ [LlmCall p]) = posts t) as Hp.
  { unfold posts. rewrite filter_app. simpl. apply app_nil_r. }
  unfold ainvoke. destruct (llm_ainvoke t p) as [reply|e]; [|by eexists _, _].
  destruct (first_keyword intent_map _); by eexists _, _.
Qed.



(** ** User lookup *)

Lemma Database_get_user_profile_default (uid : string) :
  Database_get_user_profile uid
  = Ok (Some (default student123 (SAMPLE_USERS !! uid))).
Proof.
  unfold Database_get_user_profile.
  assert (getitem SAMPLE_USERS "student123" = Ok student123) as ->
    by (vm_compute; reflexivity).
  reflexivity.
Qed.

(** C9, as the code has it: an id that is absent from the store is
    answered with status 200 and the record of "student123", not with
    404. *)
Lemma absent_user_is_answered_200 :
  SAMPLE_USERS !! "nonexistent-user" = None
  /\ get_user_profile Database_get_user_profile "nonexistent-user"
     = HTTP_200 (Some student123)
  /\ forall detail,
       get_user_profile Database_get_user_profile "nonexistent-user"
       <> HTTPException 404 detail.
Proof.
  assert (SAMPLE_USERS !! "nonexistent-user" = None) as Habs
    by (vm_compute; reflexivity).
  assert (get_user_profile Database_get_user_profile "nonexistent-user"
          = HTTP_200 (Some student123)) as Hget.
  { unfold get_user_profile.
    by rewrite Database_get_user_profile_default, Habs. }
  split; [exact Habs|]. split; [exact Hget|].
  intros detail. rewrite Hget. discriminate.
Qed.

(** C9, amended: for every user id, [GET /user/{user_id}] over the
    [Database] of the repository answers 200 with the stored record when
    the id is in the store, and 200 with the record of "student123" when
    it is not; the route answers 404 when the lookup raises, which this
    store never does. *)
Theorem user_lookup_falls_back_to_student123 (uid : string) :
  (forall p, SAMPLE_USERS !! uid = Some p ->
     get_user_profile Database_get_user_profile uid = HTTP_200 (Some p))
  /\ (SAMPLE_USERS !! uid = None ->
      get_user_profile Database_get_user_profile uid
      = HTTP_200 (Some student123))
  /\ (forall lookup e, lookup uid = Raise e ->
        get_user_profile lookup uid
        = HTTPException 404 ("User not found: " +:+ e))
  /\ is_ok (Database_get_user_profile uid) = true.
Proof.
  unfold get_user_profile. rewrite Database_get_user_profile_default.
  split; [|split; [|split]].
  - by intros p ->.
  - by intros ->.
  - by intros lookup e ->.
  - reflexivity.
Qed.

(** ** The sample users and the scenarios of the test suite *)

Example mastery_student123 :
  mastery_of_summary (mastery_level_summary student123) = Ok 6%Z.
Proof. reflexivity. Qed.

Example mastery_absent : mastery_of_summary "level 9, or Level IX" = Ok 1%Z.
Proof. reflexivity. Qed.

Example mastery_second_occurrence :
  mastery_of_summary "Level up! Level  12 reached" = Ok 12%Z.
Proof. reflexivity. Qed.

Example stored_user_is_returned :
  get_user_profile Database_get_user_profile "student456"
  = HTTP_200 (Some student456).
Proof. vm_compute. reflexivity. Qed.

Example strip_fence :
  clean_json_response "```json{}```" = "{}"
  /\ clean_json_response "``` {} ```" = "{}"
  /\ clean_json_response "{}" = "{}".
Proof. repeat split; reflexivity. Qed.

Example status_text : PyStr.str_of_int 503 = "503".
Proof. reflexivity. Qed.

(** Scenario A: "student123" asks for flashcards. *)
Example scenario_focused_student :
  let E := scripted_env (Ok "flashcard_generator")
             (Raise "All connection attempts failed") no_json in
  infer "I want to practice flashcards on photosynthesis for biology"
    (Some {| ui_user_id := "student123"; ui_name := "Charlie";
             ui_grade_level := "8";
             ui_learning_style_summary := learning_style_summary student123;
             ui_emotional_state_summary := emotional_state_summary student123;
             ui_mastery_level_summary := mastery_level_summary student123 |})
    "student123"
  = {| teaching_style := DIRECT; emotional_state := FOCUSED;
       mastery_level := LEVEL_6; inferred_difficulty := "medium" |}.
Proof. vm_compute. reflexivity. Qed.

(** Scenario B: "student456" asks for an explanation. *)
Example scenario_anxious_student :
  let E := scripted_env (Ok "concept_explainer")
             (Raise "All connection attempts failed") no_json in
  exists state t,
    bind (retrieve_state (initial_state "student456" "s2"
                            "Explain quantum mechanics to me" []))
      analyze_educational_context [] = (Ok state, t)
    /\ st_educational_context state
       = Some {| teaching_style := VISUAL; emotional_state := ANXIOUS;
                 mastery_level := LEVEL_3; inferred_difficulty := "easy" |}.
Proof. intros E. eexists _, _. split; vm_compute; reflexivity. Qed.

(** The dispatch of scenario D: the tool does not answer. *)
Example scenario_tool_times_out :
  let E := scripted_env (Ok "quiz") (Raise "timed out")
             (fun _ => Ok (VDict ∅)) in
  exists state t,
    graph_ainvoke (initial_state "student123" "s3" "Quiz me on algebra" []) []
    = (Ok state, t)
    /\ st_final_response state
       = Some "I encountered an issue while processing your request: Connection error: timed out. Please try again."
    /\ List.length (posts t) = 1%nat.
Proof. intros E. eexists _, _. repeat split; vm_compute; reflexivity. Qed.

(** * Further properties of the code *)

(** ** The mastery pattern *)

Lemma no_Level_no_match (s : string) :
  PyStr.contains "Level" s = false -> level_N s = None.
Proof.
  induction s as [|c s IH]; [done|].
  change (PyStr.contains "Level" (String c s))
    with (PyStr.startswith "Level" (String c s) || PyStr.contains "Level" s).
  intros [Hs Hc]%orb_false_elim.
  change (level_N (String c s))
    with (match level_N_here (String c s) with
          | Some d => Some d
          | None => level_N s
          end).
  unfold level_N_here at 1. rewrite Hs. by apply IH.
Qed.

(** X1: when the search for [Level\s*(\d+)] succeeds, the summary is some
    prefix, then "Level", then white space only, then the digits of the
    group (at least one, and all of the run: what follows is not a digit),
    and the pattern matches at no earlier position. *)
Theorem level_search_sound (summary digits : string) :
  Re.search level_pattern summary = Some digits ->
  exists pre ws rest,
    summary = pre +:+ "Level" +:+ ws +:+ digits +:+ rest
    /\ PyStr.all PyStr.is_space ws = true
    /\ PyStr.all PyStr.is_digit digits = true
    /\ digits <> ""
    /\ match rest with
       | String c _ => PyStr.is_digit c = false
       | EmptyString => True
       end
    /\ forall k, (k < String.length pre)%nat ->
         level_pattern (PyStr.drop k summary) = None.
Proof.
  rewrite search_level_N. intros (pre & s' & -> & Hh & Hl)%level_N_leftmost.
  destruct (level_N_here_sound s' digits Hh) as (Hs & Hws & Hd & Hne & Hr).
  eexists pre, _, _. split; [by rewrite <- Hs|].
  split; [exact Hws|]. split; [exact Hd|]. split; [exact Hne|].
  split; [exact Hr|].
  intros k Hk. rewrite level_pattern_here. by apply Hl.
Qed.

Lemma level_search_sound_witness :
  exists pre ws rest,
    "Mastery: Level  12 of 10" = pre +:+ "Level" +:+ ws +:+ "12" +:+ rest
    /\ PyStr.all PyStr.is_space ws = true
    /\ PyStr.all PyStr.is_digit "12" = true
    /\ "12" <> ""
    /\ match rest with
       | String c _ => PyStr.is_digit c = false
       | EmptyString => True
       end
    /\ forall k, (k < String.length pre)%nat ->
         level_pattern (PyStr.drop k "Mastery: Level  12 of 10") = None.
Proof.
  apply (level_search_sound "Mastery: Level  12 of 10" "12").
  vm_compute. reflexivity.
Defined.

(** X2: the pattern is case sensitive and needs the word: a summary in
    which "Level" does not occur has mastery 1, so that a focused student
    gets medium difficulty from it whatever else it says. *)
Theorem no_Level_means_mastery_1 (summary : string) :
  PyStr.contains "Level" summary = false ->
  mastery_of_summary summary = Ok 1%Z
  /\ _infer_difficulty summary FOCUSED = Ok "medium".
Proof.
  intros Hc. assert (mastery_of_summary summary = Ok 1%Z) as Hm.
  { unfold mastery_of_summary. rewrite search_level_N.
    by rewrite (no_Level_no_match _ Hc). }
  split; [exact Hm|]. unfold _infer_difficulty. by rewrite Hm.
Qed.

Lemma no_Level_means_mastery_1_witness :
  mastery_of_summary "level 9: expert, LEVEL 9" = Ok 1%Z
  /\ _infer_difficulty "level 9: expert, LEVEL 9" FOCUSED = Ok "medium".
Proof.
  apply no_Level_means_mastery_1. vm_compute. reflexivity.
Defined.

(** ** Emotional state *)

Lemma lower_char_idem (c : ascii) :
  PyStr.lower_char (PyStr.lower_char c) = PyStr.lower_char c.
Proof. destruct c as [[] [] [] [] [] [] [] []]; vm_compute; reflexivity. Qed.

Lemma lower_idem (s : string) : PyStr.lower (PyStr.lower s) = PyStr.lower s.
Proof.
  induction s as [|c s IH]; simpl; [done|]. by rewrite lower_char_idem, IH.
Qed.

Lemma lower_app (a b : string) :
  PyStr.lower (a +:+ b) = PyStr.lower a +:+ PyStr.lower b.
Proof.
  induction a as [|c a IH]; [done|].
  change (PyStr.lower (String c (a +:+ b))
          = String (PyStr.lower_char c) (PyStr.lower a +:+ PyStr.lower b)).
  simpl. by rewrite IH.
Qed.

Lemma startswith_app (w s post : string) :
  PyStr.startswith w s = true -> PyStr.startswith w (s +:+ post) = true.
Proof.
  revert s. induction w as [|a w IH]; intros s; simpl; [done|].
  destruct s as [|b s]; [done|].
  change (String b s +:+ post) with (String b (s +:+ post)).
  intros [-> Hw]%andb_prop. simpl. by apply IH.
Qed.

Lemma contains_app_r (w s post : string) :
  PyStr.contains w s = true -> PyStr.contains w (s +:+ post) = true.
Proof.
  induction s as [|c s IH].
  - simpl. rewrite orb_false_r. intros Hw.
    destruct w; [|done]. by destruct post.
  - change (PyStr.contains w (String c s))
      with (PyStr.startswith w (String c s) || PyStr.contains w s).
    change (PyStr.contains w (String c s +:+ post))
      with (PyStr.startswith w (String c s +:+ post)
            || PyStr.contains w (s +:+ post)).
    intros [Hs | Hc]%orb_prop.
    + by rewrite (startswith_app _ _ _ Hs).
    + rewrite (IH Hc). apply orb_true_r.
Qed.

Lemma contains_app_l (w pre s : string) :
  PyStr.contains w s = true -> PyStr.contains w (pre +:+ s) = true.
Proof.
  intros Hc. induction pre as [|c pre IH]; [done|].
  change (PyStr.contains w (String c pre +:+ s))
    with (PyStr.startswith w (String c (pre +:+ s))
          || PyStr.contains w (pre +:+ s)).
  rewrite IH. apply orb_true_r.
Qed.

Lemma any_in_embedded (words : list string) (pre s post : string) :
  PyStr.any_in words s = true ->
  PyStr.any_in words (pre +:+ s +:+ post) = true.
Proof.
  unfold PyStr.any_in. rewrite !existsb_exists.
  intros (w & Hin & Hc). exists w. split; [done|].
  by apply contains_app_l, contains_app_r.
Qed.

(** X3: letter case plays no role in the inference of the emotional state
    nor in the keyword classifier: lowercasing the message (and the
    summary) beforehand changes neither result. *)
Theorem inference_ignores_case (message current_state : string) :
  _infer_emotional_state (PyStr.lower message) (PyStr.lower current_state)
  = _infer_emotional_state message current_state
  /\ _analyze_intent_keywords (PyStr.lower message)
     = _analyze_intent_keywords message.
Proof.
  unfold _infer_emotional_state, _analyze_intent_keywords.
  by rewrite !lower_idem.
Qed.

(** X4: a message in which a confused marker occurs stays confused when
    any text is put before and after it. *)
Theorem confused_survives_embedding (message pre post current_state : string) :
  PyStr.any_in confused_markers (PyStr.lower message) = true ->
  _infer_emotional_state (pre +:+ message +:+ post) current_state = CONFUSED.
Proof.
  intros Hm. unfold _infer_emotional_state.
  rewrite !lower_app.
  by rewrite (any_in_embedded _ (PyStr.lower pre) _ (PyStr.lower post) Hm).
Qed.

Lemma confused_survives_embedding_witness :
  _infer_emotional_state
    ("I am focused and ready, but " +:+ "I'm LOST" +:+ " on integrals")
    "Focused and motivated to improve" = CONFUSED.
Proof.
  apply confused_survives_embedding. vm_compute. reflexivity.
Defined.

(** X5: when the message carries no marker, the state comes from the
    summary of the profile, which is read for focused, anxious and
    confused only: the result is never TIRED, and it is FOCUSED for every
    summary naming none of the three, one that says "tired" included. *)
Theorem profile_never_gives_tired (message current_state : string) :
  PyStr.any_in confused_markers (PyStr.lower message) = false ->
  PyStr.any_in anxious_markers (PyStr.lower message) = false ->
  PyStr.any_in tired_markers (PyStr.lower message) = false ->
  PyStr.any_in focused_markers (PyStr.lower message) = false ->
  _infer_emotional_state message current_state <> TIRED
  /\ (PyStr.contains "anxious" (PyStr.lower current_state) = false ->
      PyStr.contains "confused" (PyStr.lower current_state) = false ->
      _infer_emotional_state message current_state = FOCUSED).
Proof.
  intros H1 H2 H3 H4. unfold _infer_emotional_state.
  rewrite H1, H2, H3, H4. split.
  - by repeat destruct (PyStr.contains _ _).
  - intros -> ->. by destruct (PyStr.contains _ _).
Qed.

Lemma profile_never_gives_tired_witness :
  _infer_emotional_state "Explain gravity to me" "Tired after sports" <> TIRED
  /\ (PyStr.contains "anxious" (PyStr.lower "Tired after sports") = false ->
      PyStr.contains "confused" (PyStr.lower "Tired after sports") = false ->
      _infer_emotional_state "Explain gravity to me" "Tired after sports"
      = FOCUSED).
Proof.
  apply profile_never_gives_tired; vm_compute; reflexivity.
Defined.

(** ** Intent *)

Lemma first_keyword_known (tool_name : string) (intent : ToolIntent) :
  first_keyword intent_map tool_name = Some intent -> intent <> UNKNOWN.
Proof.
  unfold intent_map. simpl.
  repeat destruct (PyStr.contains _ tool_name); congruence.
Qed.

(** X6: the keyword classifier answers UNKNOWN exactly when no word of its
    four lists occurs in the lowercased message. *)
Theorem keywords_unknown_iff (message : string) :
  _analyze_intent_keywords message = UNKNOWN
  <-> PyStr.any_in ["flashcard"; "memorize"; "cards"; "practice terms"; "drill";
                    "note"; "notes"; "summary"; "outline"; "write";
                    "explain"; "concept"; "understand"; "what is"; "how does";
                    "tell me about";
                    "quiz"; "practice"; "questions"; "test"; "problems";
                    "exercises"] (PyStr.lower message) = false.
Proof.
  unfold _analyze_intent_keywords.
  change ["flashcard"; "memorize"; "cards"; "practice terms"; "drill";
          "note"; "notes"; "summary"; "outline"; "write";
          "explain"; "concept"; "understand"; "what is"; "how does";
          "tell me about";
          "quiz"; "practice"; "questions"; "test"; "problems"; "exercises"]
    with (["flashcard"; "memorize"; "cards"; "practice terms"; "drill"]
          ++ ["note"; "notes"; "summary"; "outline"; "write"]
          ++ ["explain"; "concept"; "understand"; "what is"; "how does";
              "tell me about"]
          ++ ["quiz"; "practice"; "questions"; "test"; "problems";
              "exercises"])%list.
  unfold PyStr.any_in. rewrite !existsb_app.
  destruct (existsb _ ["flashcard"; "memorize"; "cards"; "practice terms"; "drill"]);
    [split; discriminate|].
  destruct (existsb _ ["note"; "notes"; "summary"; "outline"; "write"]);
    [split; discriminate|].
  destruct (existsb _ ["explain"; "concept"; "understand"; "what is";
                       "how does"; "tell me about"]);
    [split; discriminate|].
  destruct (existsb _ ["quiz"; "practice"; "questions"; "test"; "problems";
                       "exercises"]);
    [split; discriminate|].
  done.
Qed.

(** X7: the model cannot choose UNKNOWN: when [analyze_intent] ends with
    the intent UNKNOWN, this is what the keyword classifier says of the
    message, whatever the model replied. *)
Theorem unknown_only_from_keywords `{Env} (state state' : WorkflowState)
    (t t' : list event) :
  analyze_intent state t = (Ok state', t') ->
  st_intent state' = Some UNKNOWN ->
  _analyze_intent_keywords (st_message state) = UNKNOWN.
Proof.
  unfold analyze_intent, try_except, analyze_intent_try, bind, ret.
  destruct (format_prompt INTENT_ANALYSIS_PROMPT state t) as [[p|e] t1].
  - unfold ainvoke. destruct (llm_ainvoke t1 p) as [reply|e].
    + destruct (first_keyword intent_map (PyStr.lower (PyStr.strip reply)))
        as [found|] eqn:Hk.
      * intros [= <- <-]. simpl. intros [= ->].
        by apply first_keyword_known in Hk.
      * intros [= <- <-]. simpl. congruence.
    + intros [= <- <-]. simpl. congruence.
  - intros [= <- <-]. simpl. congruence.
Qed.

Lemma unknown_only_from_keywords_witness :
  let E := scripted_env (Ok "unknown") (Raise "All connection attempts failed")
             no_json in
  let state :=
    set_educational_context
      (set_user_info (initial_state "student123" "s1" "good morning" [])
         (Some {| ui_user_id := "student123"; ui_name := "Charlie";
                  ui_grade_level := "8";
                  ui_learning_style_summary := "Kinesthetic learner";
                  ui_emotional_state_summary := "Focused and motivated";
                  ui_mastery_level_summary := "Level 6" |}))
      (Some safe_default_context) in
  _analyze_intent_keywords (st_message state) = UNKNOWN.
Proof.
  intros E state.
  destruct (analyze_intent state []) as [[state'|e] t'] eqn:Ha;
    [|vm_compute in Ha; discriminate].
  apply (@unknown_only_from_keywords E state state' [] t' Ha).
  vm_compute in Ha. by injection Ha as <- <-.
Defined.

(** X8: when the model replies with the name of a tool, in any letter
    case and with white space around it, [analyze_intent] selects that
    tool, whatever the message says. *)
Theorem tool_name_reply_selects_tool `{Env} (state : WorkflowState)
    (t : list event) (reply : string) (i : ToolIntent) :
  i <> UNKNOWN ->
  model_reply (Ok INTENT_ANALYSIS_PROMPT) state t = Ok reply ->
  PyStr.lower (PyStr.strip reply) = ToolIntent_value i ->
  exists t', analyze_intent state t = (Ok (set_intent state (Some i)), t').
Proof.
  intros Hi Hr Hn.
  assert (first_keyword intent_map (ToolIntent_value i) = Some i) as Hk.
  { destruct i; try done; vm_compute; reflexivity. }
  unfold analyze_intent, try_except, analyze_intent_try, model_reply, bind in *.
  pose proof (format_prompt_trace INTENT_ANALYSIS_PROMPT state t) as Ht.
  destruct (format_prompt INTENT_ANALYSIS_PROMPT state t) as [[p|e] t1];
    simpl in Ht; subst t1; [|done].
  unfold ainvoke. rewrite Hr, Hn, Hk. by eexists.
Qed.

Lemma tool_name_reply_selects_tool_witness :
  let E := scripted_env (Ok "  Note_Maker
") (Raise "All connection attempts failed") no_json in
  let state :=
    set_educational_context
      (set_user_info (initial_state "student123" "s1" "quiz me on cells" [])
         (Some {| ui_user_id := "student123"; ui_name := "Charlie";
                  ui_grade_level := "8";
                  ui_learning_style_summary := "Kinesthetic learner";
                  ui_emotional_state_summary := "Focused and motivated";
                  ui_mastery_level_summary := "Level 6" |}))
      (Some safe_default_context) in
  exists t', analyze_intent state [] = (Ok (set_intent state (Some NOTE_MAKER)), t').
Proof.
  intros E state.
  apply (@tool_name_reply_selects_tool E state [] "  Note_Maker
" NOTE_MAKER); [discriminate | |]; vm_compute; reflexivity.
Defined.

(** ** Parameter extraction *)

Lemma length_append (a b : string) :
  String.length (a +:+ b) = (String.length a + String.length b)%nat.
Proof.
  induction a as [|c a IH]; [done|].
  change (S (String.length (a +:+ b)) = S (String.length a + String.length b)).
  by rewrite IH.
Qed.

Lemma firstn_append (a b : string) :
  PyStr.firstn (String.length a) (a +:+ b) = a.
Proof.
  induction a as [|c a IH]; [done|].
  change (String c (PyStr.firstn (String.length a) (a +:+ b)) = String c a).
  by rewrite IH.
Qed.

Lemma drop_append (a b : string) :
  PyStr.drop (String.length a) (a +:+ b) = b.
Proof. induction a as [|c a IH]; [done|]. exact IH. Qed.

(** The slice [s[i:-j]] takes the middle out of a text between a prefix of
    [i] and a suffix of [j] characters. *)
Lemma slice_middle (p body q : string) :
  PyStr.slice_to_end_minus (String.length p) (String.length q)
    (p +:+ body +:+ q) = body.
Proof.
  unfold PyStr.slice_to_end_minus.
  rewrite drop_append, !length_append.
  replace (String.length p + (String.length body + String.length q)
           - String.length q - String.length p)%nat
    with (String.length body) by lia.
  apply firstn_append.
Qed.

Lemma startswith_append (p s : string) : PyStr.startswith p (p +:+ s) = true.
Proof.
  induction p as [|c p IH]; [done|].
  change (Ascii.eqb c c && PyStr.startswith p (p +:+ s) = true).
  by rewrite Ascii.eqb_refl, IH.
Qed.

(** X9: the clean-up of the model's reply takes the body out of its code
    fence and strips it, for the fence opened with three back quotes and
    "json" as for the one opened with three back quotes alone; a reply that
    does not start with three back quotes is left as it is. *)
Theorem clean_json_response_fenced (body : string) :
  clean_json_response ("```json" +:+ body +:+ "```") = PyStr.strip body
  /\ (PyStr.startswith "json" body = false ->
      clean_json_response ("```" +:+ body +:+ "```") = PyStr.strip body)
  /\ (PyStr.startswith "```" body = false -> clean_json_response body = body).
Proof.
  split; [|split].
  - unfold clean_json_response.
    rewrite (startswith_append "```json" (body +:+ "```")).
    pose proof (slice_middle "```json" body "```") as Hs.
    change (String.length "```json") with 7%nat in Hs.
    change (String.length "```") with 3%nat in Hs.
    by rewrite Hs.
  - intros Hj. unfold clean_json_response.
    assert (PyStr.startswith "```json" ("```" +:+ body +:+ "```") = false) as ->.
    { change (PyStr.startswith "json" (body +:+ "```") = false).
      by destruct body as [|c1 [|c2 [|c3 [|c4 body]]]]. }
    rewrite (startswith_append "```" (body +:+ "```")).
    pose proof (slice_middle "```" body "```") as Hs.
    change (String.length "```") with 3%nat in Hs.
    by rewrite Hs.
  - intros Hb. unfold clean_json_response. rewrite Hb.
    assert (PyStr.startswith "```json" body = false) as ->; [|done].
    destruct body as [|c1 [|c2 [|c3 body]]]; try done.
    cbn [PyStr.startswith] in Hb |- *.
    destruct (Ascii.eqb "`" c1); [|done].
    destruct (Ascii.eqb "`" c2); [|done].
    by destruct (Ascii.eqb "`" c3).
Qed.

(** X10: for every tool name and state, [_extract_parameters] returns
    without raising; it changes no field of the state but
    [extracted_parameters], calls the model at most once and sends no
    POST. *)
Theorem extract_parameters_never_raises `{Env} (tool_name : string)
    (state : WorkflowState) (t : list event) :
  exists (v : value) (t' : list event),
    _extract_parameters tool_name state t
    = (Ok (set_extracted_parameters state v), t')
    /\ (t' = t \/ exists p, t' = (t ++ [LlmCall p])%list)
    /\ posts t' = posts t.
Proof.
  unfold _extract_parameters, try_except, _extract_parameters_try, bind, lift.
  destruct (getitem PARAMETER_EXTRACTION_PROMPTS tool_name) as [tpl|e0];
    [|eexists _, _; split; [reflexivity|]; split; [by left | done]].
  pose proof (format_prompt_trace tpl state t) as Ht.
  destruct (format_prompt tpl state t) as [[p|e1] t1]; simpl in Ht; subst t1;
    [|eexists _, _; split; [reflexivity|]; split; [by left | done]].
  assert (posts (t ++ [LlmCall p]) = posts t) as Hp.
  { unfold posts. rewrite filter_app. simpl. apply app_nil_r. }
  unfold ainvoke. destruct (llm_ainvoke t p) as [reply|e2];
    [|eexists _, _; split; [reflexivity|]; split; [right; by eexists | done]].
  destruct (json_loads _) as [params|e3];
    eexists _, _; (split; [reflexivity|]; split; [right; by eexists | done]).
Qed.

Lemma no_prompt_no_fallback (tool_name : string) :
  PARAMETER_EXTRACTION_PROMPTS !! tool_name = None ->
  _get_fallback_params tool_name = ∅.
Proof.
  unfold PARAMETER_EXTRACTION_PROMPTS, _get_fallback_params.
  intros H.
  apply lookup_insert_None in H as [H H1].
  apply lookup_insert_None in H as [H H2].
  apply lookup_insert_None in H as [H H3].
  apply lookup_insert_None in H as [H H4].
  cbv zeta.
  rewrite lookup_insert_ne by done. rewrite lookup_insert_ne by done.
  rewrite lookup_insert_ne by done. rewrite lookup_insert_ne by done.
  by rewrite lookup_empty.
Qed.

(** X11: for a tool name that has no prompt, [_extract_parameters] does
    not call the model and sets [extracted_parameters] to the empty
    dictionary. *)
Theorem unknown_tool_extracts_nothing `{Env} (tool_name : string)
    (state : WorkflowState) (t : list event) :
  PARAMETER_EXTRACTION_PROMPTS !! tool_name = None ->
  _extract_parameters tool_name state t
  = (Ok (set_extracted_parameters state (VDict ∅)), t).
Proof.
  intros Hn. unfold _extract_parameters, try_except, _extract_parameters_try,
    bind, lift, getitem, ret.
  by rewrite Hn, (no_prompt_no_fallback _ Hn).
Qed.

Lemma unknown_tool_extracts_nothing_witness :
  let E := scripted_env (Ok "{}") (Raise "All connection attempts failed")
             no_json in
  _extract_parameters "essay_writer" (initial_state "student123" "s1" "hi" []) []
  = (Ok (set_extracted_parameters (initial_state "student123" "s1" "hi" [])
           (VDict ∅)), []).
Proof.
  intros E. apply (@unknown_tool_extracts_nothing E). vm_compute. reflexivity.
Defined.

(** ** Dispatch *)

Ltac dispatch_unfold :=
  unfold dispatch_to_api, try_except, dispatch_to_api_try, bind, attr_of,
    ret, lift, post.

Lemma posts_snoc_post (t : list event) (url : string) (req : APIRequest)
    (timeout : Z) :
  posts (t ++ [HttpPost url req timeout]) = (posts t ++ [HttpPost url req timeout])%list.
Proof. unfold posts. by rewrite filter_app. Qed.

(** X12: for every state, whatever its intent, [dispatch_to_api] returns
    without raising; the state it returns is the state it got or differs
    from it in [api_response] only; the trace is unchanged or longer by
    one POST with the time-out 60. *)
Theorem dispatch_never_raises `{Env} (state : WorkflowState) (t : list event) :
  exists (state' : WorkflowState) (t' : list event),
    dispatch_to_api state t = (Ok state', t')
    /\ (state' = state \/ exists v, state' = set_api_response state v)
    /\ (t' = t \/ exists url req, t' = (t ++ [HttpPost url req 60])%list).
Proof.
  destruct (st_intent state) as [i|] eqn:Hi.
  - destruct (decide (i = UNKNOWN)) as [->|Hu].
    + exists state, t. unfold dispatch_to_api.
      rewrite bool_decide_eq_true_2 by done. by auto.
    + dispatch_unfold.
      rewrite bool_decide_eq_false_2 by (rewrite Hi; congruence).
      rewrite Hi.
      destruct (tool_mapping_known i Hu) as (api_url & Hm & Htr).
      rewrite Hm, Htr. cbn [negb]. cbv beta iota.
      destruct (new_APIRequest _ _ _ _ _) as [req|e0]; cbv beta iota;
        [|eexists _, _; split; [reflexivity|]; split; [right; by eexists | by left]].
      destruct (client_post t (api_url +:+ "/invoke") req 60) as [resp|e1];
        cbv beta iota;
        [|eexists _, _; split; [reflexivity|];
          split; [right; by eexists | right; by eexists _, _]].
      destruct (status_code resp =? 200)%Z; cbv beta iota;
        [|eexists _, _; split; [reflexivity|];
          split; [right; by eexists | right; by eexists _, _]].
      destruct (json resp) as [body|e2]; cbv beta iota;
        eexists _, _; (split; [reflexivity|];
          split; [right; by eexists | right; by eexists _, _]).
  - dispatch_unfold. rewrite Hi.
    rewrite bool_decide_eq_false_2 by done. cbn [tool_mapping].
    eexists _, _. split; [reflexivity|]. split; [right; by eexists | by left].
Qed.

Lemma new_APIRequest_incomplete (name : string) (user_info : option UserInfo)
    (chat_history : list Message) (extracted_parameters : value)
    (educational_context : option EducationalContext) :
  user_info = None \/ educational_context = None
  \/ (forall d, extracted_parameters <> VDict d) ->
  exists e,
    new_APIRequest name user_info chat_history extracted_parameters
      educational_context = Raise e.
Proof.
  unfold new_APIRequest. intros [-> | [-> | Hp]].
  - by eexists.
  - destruct user_info; [|by eexists].
    destruct extracted_parameters; by eexists.
  - destruct user_info; [|by eexists].
    destruct extracted_parameters as [| | | | |d];
      try (destruct educational_context; by eexists).
    by destruct (Hp d).
Qed.

(** X13: no request leaves when none can be built.  With no intent in the
    state, or an intent other than UNKNOWN and no user information, no
    educational context or extracted parameters that are not a dictionary
    (a model reply that is valid JSON but not an object), [dispatch_to_api]
    sends nothing and stores a failure, "Tool not configured" in the first
    case and "Connection error: ..." in the others. *)
Theorem dispatch_sends_nothing `{Env} (state : WorkflowState) (t : list event) :
  st_intent state <> Some UNKNOWN ->
  st_intent state = None \/ st_user_info state = None
  \/ st_educational_context state = None
  \/ (forall d, st_extracted_parameters state <> VDict d) ->
  exists msg,
    dispatch_to_api state t = (Ok (set_api_response state (failure msg)), t)
    /\ (st_intent state = None -> msg = "Tool not configured")
    /\ (st_intent state <> None -> exists e, msg = "Connection error: " +:+ e).
Proof.
  intros Hu Hc. dispatch_unfold.
  rewrite bool_decide_eq_false_2 by done.
  destruct (st_intent state) as [i|] eqn:Hi.
  - assert (i <> UNKNOWN) as Hi' by congruence.
    destruct (tool_mapping_known i Hi') as (api_url & Hm & Htr).
    rewrite Hm, Htr. cbn [negb]. cbv beta iota.
    destruct (new_APIRequest_incomplete (ToolIntent_value i)
                (st_user_info state) (st_chat_history state)
                (st_extracted_parameters state) (st_educational_context state))
      as [e He].
    { destruct Hc as [Hc | Hc]; [done | exact Hc]. }
    rewrite He. cbv beta iota.
    eexists. split; [reflexivity|]. split; [done|]. intros _. by eexists.
  - cbn [tool_mapping]. eexists. split; [reflexivity|].
    split; [done|]. done.
Qed.

Lemma dispatch_sends_nothing_witness :
  let E := scripted_env (Ok "quiz") (Ok {| status_code := 200; json := Ok VNone |})
             (fun _ => Ok (VList [])) in
  let state :=
    set_extracted_parameters
      (set_intent (initial_state "student123" "s1" "quiz me" [])
         (Some QUIZ_GENERATOR))
      (VList []) in
  exists msg,
    dispatch_to_api state [] = (Ok (set_api_response state (failure msg)), [])
    /\ (st_intent state = None -> msg = "Tool not configured")
    /\ (st_intent state <> None -> exists e, msg = "Connection error: " +:+ e).
Proof.
  intros E state.
  apply (@dispatch_sends_nothing E state []); [discriminate|].
  right. left. reflexivity.
Defined.

(** X14: a request that can be built is sent once, to the endpoint of its
    own tool: the POST goes to port 8001, 8002, 8003 or 8004 of localhost
    for flashcards, notes, concepts and quizzes, at the path /invoke, with
    the time-out 60, and carries the name of the tool, the user
    information, the chat history, the extracted parameters and the
    educational context of the state. *)
Theorem dispatch_posts_to_own_endpoint `{Env} (state : WorkflowState)
    (t : list event) (i : ToolIntent) (ui : UserInfo) (d : gmap string value)
    (ctx : EducationalContext) :
  st_intent state = Some i -> i <> UNKNOWN ->
  st_user_info state = Some ui ->
  st_extracted_parameters state = VDict d ->
  st_educational_context state = Some ctx ->
  let port :=
    match i with
    | FLASHCARD_GENERATOR => "8001" | NOTE_MAKER => "8002"
    | CONCEPT_EXPLAINER => "8003" | _ => "8004"
    end in
  let request :=
    {| tool_name := ToolIntent_value i; req_user_info := ui;
       req_chat_history := st_chat_history state;
       req_extracted_parameters := d; req_educational_context := ctx |} in
  exists v,
    dispatch_to_api state t
    = (Ok (set_api_response state v),
       (t ++ [HttpPost ("http://localhost:" +:+ port +:+ "/invoke") request 60])%list).
Proof.
  intros Hi Hu Hui Hd Hctx port request. dispatch_unfold.
  rewrite bool_decide_eq_false_2 by (rewrite Hi; congruence).
  rewrite Hi, Hui, Hd, Hctx.
  assert (tool_mapping (Some i) = Some ("http://localhost:" +:+ port)) as ->.
  { subst port. by destruct i. }
  assert (truthy (VStr ("http://localhost:" +:+ port)) = true) as ->.
  { subst port. by destruct i. }
  cbn [negb new_APIRequest]. cbv beta iota.
  assert ((("http://localhost:" +:+ port) +:+ "/invoke")
          = "http://localhost:" +:+ port +:+ "/invoke") as ->.
  { subst port. by destruct i. }
  fold request.
  destruct (client_post t _ request 60) as [resp|e1]; cbv beta iota;
    [|by eexists].
  destruct (status_code resp =? 200)%Z; cbv beta iota; [|by eexists].
  destruct (json resp) as [body|e2]; cbv beta iota; by eexists.
Qed.

Lemma dispatch_posts_to_own_endpoint_witness :
  let E := scripted_env (Ok "note_maker") (Raise "timed out") no_json in
  let ui := {| ui_user_id := "student456"; ui_name := "Alice";
               ui_grade_level := "10";
               ui_learning_style_summary := "Visual learner";
               ui_emotional_state_summary := "Anxious about new concepts";
               ui_mastery_level_summary := "Level 3" |} in
  let state :=
    set_intent
      (set_educational_context
         (set_user_info (initial_state "student456" "s1" "notes please" [])
            (Some ui))
         (Some safe_default_context))
      (Some NOTE_MAKER) in
  exists v,
    dispatch_to_api state []
    = (Ok (set_api_response state v),
       [HttpPost "http://localhost:8002/invoke"
          {| tool_name := "note_maker"; req_user_info := ui;
             req_chat_history := []; req_extracted_parameters := ∅;
             req_educational_context := safe_default_context |} 60]).
Proof.
  intros E ui state.
  apply (@dispatch_posts_to_own_endpoint E state [] NOTE_MAKER ui ∅
           safe_default_context); (reflexivity || discriminate).
Defined.

(** ** Formatting *)

(** X15: [format_response] returns exactly in these cases: the intent is
    UNKNOWN; or [api_response] is false ([None], an empty dictionary or
    list, zero, the empty string); or it is a dictionary whose "success" is
    false or absent; or it is a dictionary whose "success" is true, that
    has a "data" entry, and the state has an intent and an educational
    context.  In every other case it raises (a true [api_response] that is
    not a dictionary, a success without "data").  When it returns, it has
    set [final_response] and changed nothing else. *)
Theorem format_response_returns_iff `{Env} (state : WorkflowState) :
  (is_ok (format_response state) = true <->
   st_intent state = Some UNKNOWN
   \/ truthy (st_api_response state) = false
   \/ exists d, st_api_response state = VDict d
        /\ (truthy (default VNone (d !! "success")) = false
            \/ (is_Some (d !! "data") /\ is_Some (st_intent state)
                /\ is_Some (st_educational_context state))))
  /\ (forall state', format_response state = Ok state' ->
        exists msg, state' = set_final_response state (Some msg)).
Proof.
  unfold format_response.
  destruct (bool_decide (st_intent state = Some UNKNOWN)) eqn:Hu.
  { apply bool_decide_eq_true in Hu. split; [split; [by auto | done]|].
    intros state' [= <-]. by eexists. }
  apply bool_decide_eq_false in Hu.
  destruct (truthy (st_api_response state)) eqn:Htr.
  2:{ split; [split; [by auto | done]|]. intros state' [= <-]. by eexists. }
  destruct (st_api_response state) as [| b | z | s | l | d] eqn:Ha;
    try (split; [split; [done | intros [? | [? | (d' & ? & _)]]; done]
                | by intros state' ?]).
  unfold value_get, value_getitem, getitem.
  destruct (truthy (default VNone (d !! "success"))) eqn:Hs.
  2:{ split.
      - split; [|done]. intros _. right. right. exists d. by auto.
      - intros state' [= <-]. by eexists. }
  destruct (d !! "data") as [dv|] eqn:Hd.
  2:{ split; [|by intros state' ?].
      split; [done|].
      intros [? | [? | (d' & [= <-] & [Hf | (Hdat & _)])]];
        try done; try congruence;
        try (rewrite Hd in Hdat; by destruct Hdat). }
  destruct (st_intent state) as [i|] eqn:Hi.
  2:{ split; [|by intros state' ?].
      split; [done|].
      intros [? | [? | (d' & [= <-] & [Hf | (_ & Hint & _)])]];
        try done; try congruence; try (by destruct Hint). }
  destruct (st_educational_context state) as [ctx|] eqn:Hc.
  2:{ split; [|by intros state' ?].
      split; [done|].
      intros [? | [? | (d' & [= <-] & [Hf | (_ & _ & Hctx)])]];
        try done; try congruence; try (by destruct Hctx). }
  split.
  - split; [|done]. intros _. right. right. exists d.
    split; [done|]. right. by eauto.
  - intros state' [= <-]. by eexists.
Qed.

(** X16: with an intent other than UNKNOWN, a false [api_response] is
    reported as "No response from tool", and a dictionary without
    "success" and without "error" as "Unknown error", both in the same
    template as a dispatch failure. *)
Theorem format_response_without_answer `{Env} (state : WorkflowState) :
  st_intent state <> Some UNKNOWN ->
  (truthy (st_api_response state) = false ->
   format_response state
   = Ok (set_final_response state
           (Some (issue_message "No response from tool"))))
  /\ (forall d, st_api_response state = VDict d -> d <> ∅ ->
        d !! "success" = None -> d !! "error" = None ->
        format_response state
        = Ok (set_final_response state (Some (issue_message "Unknown error")))).
Proof.
  intros Hu. unfold format_response.
  rewrite bool_decide_eq_false_2 by done. split.
  - by intros ->.
  - intros d -> Hne Hs He.
    assert (truthy (VDict d) = true) as ->.
    { simpl. apply negb_true_iff, Nat.eqb_neq.
      intros Hz. by apply map_size_empty_inv in Hz. }
    unfold value_get. by rewrite Hs, He.
Qed.

Lemma format_response_without_answer_witness :
  let E := scripted_env (Ok "quiz") (Raise "timed out") no_json in
  let state :=
    set_intent (initial_state "student123" "s1" "quiz me" [])
      (Some QUIZ_GENERATOR) in
  format_response state
  = Ok (set_final_response state
          (Some "I encountered an issue while processing your request: No response from tool. Please try again.")).
Proof.
  intros E state.
  apply (@format_response_without_answer E state); [discriminate | reflexivity].
Defined.

(** X17: the adaptation note is the general sentence "Tailored to your
    learning preferences." exactly for a focused student taught in the
    direct or flipped-classroom style; for every other context it lists
    the adaptations made. *)
Theorem adaptation_note_tailored_iff (context : EducationalContext) :
  _get_adaptation_note context = "Tailored to your learning preferences."
  <-> emotional_state context = FOCUSED
      /\ (teaching_style context = DIRECT
          \/ teaching_style context = FLIPPED_CLASSROOM).
Proof.
  destruct context as [ts es ml d]. unfold _get_adaptation_note. simpl.
  destruct ts, es;
    (split;
     [intros Hn; first [by auto | vm_compute in Hn; discriminate]
     | intros [He [Ht | Ht]]; first [reflexivity | discriminate]]).
Qed.

(** ** The graph as a pipeline *)

Lemma next_after_intent `{Env} (state : WorkflowState) :
  next_node node_analyze_intent state
  = Ok (To match st_intent state with
          | Some FLASHCARD_GENERATOR => node_extract_flashcard_params
          | Some NOTE_MAKER => node_extract_note_params
          | Some CONCEPT_EXPLAINER => node_extract_concept_params
          | Some QUIZ_GENERATOR => node_extract_quiz_params
          | Some UNKNOWN | None => node_format_response
          end).
Proof.
  unfold next_node, route_by_intent.
  destruct (st_intent state) as [[]|]; vm_compute; reflexivity.
Qed.

(** From an extraction node the graph runs extraction, dispatch and
    formatting, and stops. *)
Lemma run_from_extract `{Env} (k : nat) (n : Node)
    (extract : WorkflowState -> M WorkflowState) (state : WorkflowState)
    (t : list event) :
  node_action n = extract ->
  (forall s, next_node n s = Ok (To node_dispatch_to_api)) ->
  run_from (S (S (S k))) n state t
  = bind (extract state)
      (fun state4 => bind (dispatch_to_api state4)
                       (fun state5 => lift (format_response state5))) t.
Proof.
  intros Ha Hn. rewrite run_from_S, Ha. unfold bind.
  destruct (extract state t) as [[s4|e] t4]; [|done].
  rewrite Hn, run_from_S. cbn [node_action next_node].
  destruct (dispatch_to_api s4 t4) as [[s5|e] t5]; [|done].
  rewrite run_from_S. cbn [node_action next_node]. unfold lift.
  by destruct (format_response s5).
Qed.

Lemma run_is_pipeline `{Env} (state : WorkflowState) (t : list event) :
  run_from recursion_limit node_retrieve_state state t = pipeline state t.
Proof.
  unfold pipeline. change recursion_limit with (S (S (S (S (S (S 19%nat)))))).
  rewrite run_from_S. cbn [node_action next_node]. unfold bind at 1.
  destruct (retrieve_state state t) as [[s1|e] t1]; [|done].
  rewrite run_from_S. cbn [node_action next_node]. unfold bind at 1.
  destruct (analyze_educational_context s1 t1) as [[s2|e] t2]; [|done].
  rewrite run_from_S. cbn [node_action]. unfold bind at 1.
  destruct (analyze_intent s2 t2) as [[s3|e] t3]; [|done].
  rewrite next_after_intent.
  destruct (st_intent s3) as [[]|]; cbn [extract_params_for];
    try (by apply run_from_extract);
    rewrite run_from_S; cbn [node_action next_node]; unfold lift;
    by destruct (format_response s3).
Qed.

(** X18: a run of the compiled graph, under the default recursion limit,
    is the sequence of its stages: retrieve the state, analyse the
    context, analyse the intent, then for a tool intent extract, dispatch
    and format, and for UNKNOWN format at once; the first stage that
    raises ends the run with its exception. *)
Theorem graph_is_pipeline `{Env} (state : WorkflowState) (t : list event) :
  graph_ainvoke state t = pipeline state t.
Proof. unfold graph_ainvoke. apply run_is_pipeline. Qed.

Lemma extract_for_shape `{Env} (intent : ToolIntent)
    (extract : WorkflowState -> M WorkflowState) (state : WorkflowState)
    (t : list event) :
  extract_params_for (Some intent) = Some extract ->
  intent <> UNKNOWN
  /\ exists v t',
       extract state t = (Ok (set_extracted_parameters state v), t')
       /\ posts t' = posts t.
Proof.
  assert (forall tool_name, exists v t',
            _extract_parameters tool_name state t
            = (Ok (set_extracted_parameters state v), t')
            /\ posts t' = posts t) as Hex.
  { intros tool_name.
    unfold _extract_parameters, try_except, _extract_parameters_try, bind, lift.
    destruct (getitem PARAMETER_EXTRACTION_PROMPTS tool_name) as [tpl|e0];
      [|by eexists _, _].
    pose proof (format_prompt_trace tpl state t) as Ht.
    destruct (format_prompt tpl state t) as [[p|e1] t1]; simpl in Ht; subst t1;
      [|by eexists _, _].
    assert (posts (t ++ [LlmCall p]) = posts t) as Hp.
    { unfold posts. rewrite filter_app. simpl. apply app_nil_r. }
    unfold ainvoke. destruct (llm_ainvoke t p) as [reply|e2];
      [|by eexists _, _].
    destruct (json_loads _) as [params|e3]; by eexists _, _. }
  destruct intent; simpl; intros [= <-]; (split; [done|]); apply Hex.
Qed.

Lemma dispatch_without_200 `{Env} (state : WorkflowState) (t : list event)
    (i : ToolIntent) :
  (forall t0 url req timeout resp,
     client_post t0 url req timeout = Ok resp -> status_code resp <> 200%Z) ->
  st_intent state = Some i -> i <> UNKNOWN ->
  exists msg t',
    dispatch_to_api state t = (Ok (set_api_response state (failure msg)), t')
    /\ (List.length (posts t') <= S (List.length (posts t)))%nat.
Proof.
  intros Hno Hi Hu. dispatch_unfold.
  rewrite bool_decide_eq_false_2 by (rewrite Hi; congruence).
  rewrite Hi.
  destruct (tool_mapping_known i Hu) as (api_url & Hm & Htr).
  rewrite Hm, Htr. cbn [negb]. cbv beta iota.
  destruct (new_APIRequest _ _ _ _ _) as [req|e0]; cbv beta iota;
    [|eexists _, _; split; [reflexivity | lia]].
  assert (List.length (posts (t ++ [HttpPost (api_url +:+ "/invoke") req 60]))
          <= S (List.length (posts t)))%nat as Hlen.
  { rewrite posts_snoc_post, length_app. simpl. lia. }
  destruct (client_post t (api_url +:+ "/invoke") req 60) as [resp|e1] eqn:Hp;
    cbv beta iota; [|by eexists _, _].
  apply Hno in Hp. apply Z.eqb_neq in Hp. rewrite Hp.
  by eexists _, _.
Qed.

(** The stages after [analyze_intent] leave intent and context alone. *)
Lemma format_response_frame `{Env} (state state' : WorkflowState) :
  format_response state = Ok state' ->
  exists msg, state' = set_final_response state (Some msg).
Proof.
  unfold format_response.
  destruct (bool_decide _); [intros [= <-]; by eexists|].
  destruct (truthy (st_api_response state)).
  - destruct (value_get (st_api_response state) "success" VNone) as [v|e];
      [|done].
    destruct (truthy v).
    + destruct (value_getitem _ _); [|done].
      destruct (st_intent state); [|done].
      destruct (st_educational_context state); [|done].
      intros [= <-]. by eexists.
    + destruct (value_get _ "error" _); [|done].
      intros [= <-]. by eexists.
  - intros [= <-]. by eexists.
Qed.

Lemma dispatch_frame `{Env} (state state' : WorkflowState) (t t' : list event) :
  dispatch_to_api state t = (Ok state', t') ->
  state' = state \/ exists v, state' = set_api_response state v.
Proof.
  dispatch_unfold. destruct (bool_decide _); [intros [= <- _]; by left|].
  destruct (tool_mapping (st_intent state)) as [api_url|];
    [|intros [= <- _]; right; by eexists].
  destruct (negb (truthy (VStr api_url)));
    [intros [= <- _]; right; by eexists|].
  destruct (st_intent state) as [i|]; cbv beta iota;
    [|intros [= <- _]; right; by eexists].
  destruct (new_APIRequest _ _ _ _ _) as [req|e0]; cbv beta iota;
    [|intros [= <- _]; right; by eexists].
  destruct (client_post _ _ _ _) as [resp|e1]; cbv beta iota;
    [|intros [= <- _]; right; by eexists].
  destruct (status_code resp =? 200)%Z; cbv beta iota;
    [|intros [= <- _]; right; by eexists].
  destruct (json resp); cbv beta iota; intros [= <- _]; right; by eexists.
Qed.

(** What a run that returns leaves in the state. *)
Lemma pipeline_result `{Env} (state state' : WorkflowState) (t t' : list event) :
  pipeline state t = (Ok state', t') ->
  exists i ctx,
    st_intent state' = Some i
    /\ st_educational_context state' = Some ctx
    /\ is_Some (st_final_response state')
    /\ (i = UNKNOWN ->
        st_api_response state' = st_api_response state
        /\ st_final_response state' = Some clarification_message).
Proof.
  unfold pipeline. unfold bind at 1.
  destruct (retrieve_state state t) as [[s1|e] t1] eqn:Hr; [|done].
  destruct (retrieve_state_frame _ _ _ _ Hr) as (-> & Hapi & _).
  unfold bind at 1. rewrite analyze_educational_context_infer.
  set (ctx := infer _ _ _). set (s2 := set_educational_context s1 (Some ctx)).
  destruct (analyze_intent_shape s2 t) as (i & t3 & Hai & _).
  unfold bind at 1. rewrite Hai. cbn [st_intent set_intent].
  destruct (extract_params_for (Some i)) as [extract|] eqn:Hex.
  - destruct (extract_for_shape i extract (set_intent s2 (Some i)) t3 Hex)
      as (Hu & v & t4 & He & _).
    unfold bind at 1. rewrite He. unfold bind.
    destruct (dispatch_to_api _ t4) as [[s5|e] t5] eqn:Hd; [|done].
    unfold lift. destruct (format_response s5) as [s6|e] eqn:Hf; [|done].
    intros [= <- <-].
    apply format_response_frame in Hf as [msg ->].
    apply dispatch_frame in Hd as [-> | [w ->]];
      (exists i, ctx; split; [done|]; split; [done|]; split; [by eexists | done]).
  - assert (i = UNKNOWN) as -> by (by destruct i).
    unfold lift, format_response. rewrite bool_decide_eq_true_2 by done.
    intros [= <- <-]. exists UNKNOWN, ctx.
    split; [done|]. split; [done|]. split; [by eexists|].
    intros _. split; [exact Hapi | done].
Qed.

(** The run when no service answers with status 200. *)
Lemma pipeline_without_tools `{Env} (state state1 : WorkflowState)
    (t t1 : list event) :
  retrieve_state state t = (Ok state1, t1) ->
  (forall t0 url req timeout resp,
     client_post t0 url req timeout = Ok resp -> status_code resp <> 200%Z) ->
  exists state' t',
    pipeline state t = (Ok state', t')
    /\ is_Some (st_final_response state')
    /\ (st_api_response state' = st_api_response state
        \/ exists msg, st_api_response state' = failure msg)
    /\ (List.length (posts t') <= S (List.length (posts t)))%nat.
Proof.
  intros Hr Hno.
  unfold pipeline. unfold bind at 1. rewrite Hr.
  destruct (retrieve_state_frame _ _ _ _ Hr) as (-> & Hapi & _).
  unfold bind at 1. rewrite analyze_educational_context_infer.
  set (state2 := set_educational_context state1 _).
  destruct (analyze_intent_shape state2 t) as (intent & t3 & Hai & Hp3).
  unfold bind at 1. rewrite Hai. cbn [st_intent set_intent].
  destruct (extract_params_for (Some intent)) as [extract|] eqn:Hex.
  - destruct (extract_for_shape intent extract (set_intent state2 (Some intent))
                t3 Hex) as (Hu & v & t4 & He & Hp4).
    unfold bind at 1. rewrite He.
    destruct (dispatch_without_200
                (set_extracted_parameters (set_intent state2 (Some intent)) v)
                t4 intent Hno eq_refl Hu) as (msg & t5 & Hd & Hlen).
    unfold bind. rewrite Hd. unfold lift.
    rewrite (format_response_failure _ msg); [|simpl; congruence | done].
    eexists _, _. split; [reflexivity|]. split; [by eexists|].
    split; [right; by eexists|].
    rewrite Hp4, Hp3 in Hlen. exact Hlen.
  - assert (intent = UNKNOWN) as -> by (by destruct intent).
    unfold lift, format_response. rewrite bool_decide_eq_true_2 by done.
    eexists _, _. split; [reflexivity|]. split; [by eexists|].
    split; [left; exact Hapi|].
    rewrite Hp3. lia.
Qed.

(** X19: the run answers whenever the profile is there and no tool
    service answers with status 200 (it is down, times out, or fails):
    if [retrieve_state] returns, the graph returns, with a final response
    set, after at most one POST. *)
Theorem graph_answers_without_tools `{Env} (state state1 : WorkflowState)
    (t t1 : list event) :
  retrieve_state state t = (Ok state1, t1) ->
  (forall t0 url req timeout resp,
     client_post t0 url req timeout = Ok resp -> status_code resp <> 200%Z) ->
  exists state' t',
    graph_ainvoke state t = (Ok state', t')
    /\ is_Some (st_final_response state')
    /\ (List.length (posts t') <= S (List.length (posts t)))%nat.
Proof.
  intros Hr Hno.
  change (graph_ainvoke state t)
    with (run_from (6 + 19) node_retrieve_state state t).
  rewrite run_is_pipeline.
  destruct (pipeline_without_tools state state1 t t1 Hr Hno)
    as (state' & t' & Hp & Hf & _ & Hlen).
  by exists state', t'.
Qed.

Lemma graph_answers_without_tools_witness :
  let E := scripted_env (Ok "concept_explainer")
             (Ok {| status_code := 503; json := Raise "Expecting value" |})
             (fun _ => Ok (VDict ∅)) in
  exists state' t',
    graph_ainvoke (initial_state "student789" "s1" "Explain osmosis" []) []
    = (Ok state', t')
    /\ is_Some (st_final_response state')
    /\ (List.length (posts t') <= S (List.length (posts [])))%nat.
Proof.
  intros E.
  destruct (retrieve_state (initial_state "student789" "s1" "Explain osmosis" [])
              []) as [[state1|e] t1] eqn:Hr; [|vm_compute in Hr; discriminate].
  apply (@graph_answers_without_tools E _ state1 [] t1 Hr).
  intros t0 url req timeout resp [= <-]. simpl. discriminate.
Defined.

(** ** The chat endpoint *)

(** X21: every answer of [chat_endpoint] with status 200 names the tool
    used, which is the value of an intent, "unknown" included, and carries
    the educational context used; when the intent is UNKNOWN the answer
    has no data and its text is the clarification message. *)
Theorem chat_answer_names_tool_and_context `{Env} (request : ChatRequest)
    (t t' : list event) (body : ChatResponse) :
  chat_endpoint request t = (HTTP_200 body, t') ->
  exists i ctx,
    tool_used body = Some (ToolIntent_value i)
    /\ educational_context_used body = Some (context_dict ctx)
    /\ (i = UNKNOWN ->
        data body = None /\ response body = clarification_message).
Proof.
  unfold chat_endpoint, chat_endpoint_try.
  set (state0 := initial_state _ _ _ _).
  change (graph_ainvoke state0)
    with (run_from (6 + 19) node_retrieve_state state0).
  unfold bind at 1. rewrite run_is_pipeline.
  destruct (pipeline state0 t) as [[result|e] t1] eqn:Hp; [|done].
  destruct (pipeline_result _ _ _ _ Hp) as (i & ctx & Hi & Hc & [r Hr] & Hu).
  rewrite Hi, Hc, Hr. unfold bind, lift.
  destruct (if truthy (st_api_response result) then _ else _) as [data_arg|e]
    eqn:Hd; [|done].
  unfold new_ChatResponse.
  destruct data_arg as [| | | | |d]; try done; intros [= <- _];
    (exists i, ctx; split; [done|]; split; [done|]); intros ->;
    destruct (Hu eq_refl) as [Ha Hf]; rewrite Ha in Hd; simpl in Hd;
    rewrite Hr in Hf; injection Hf as ->; by try done.
Qed.

Lemma chat_answer_names_tool_and_context_witness :
  let E := scripted_env (Raise "503 The model is overloaded")
             (Raise "All connection attempts failed") no_json in
  exists i ctx body,
    tool_used body = Some (ToolIntent_value i)
    /\ educational_context_used body = Some (context_dict ctx)
    /\ (i = UNKNOWN ->
        data body = None /\ response body = clarification_message).
Proof.
  intros E.
  set (request := {| cr_user_id := "student123"; cr_session_id := "s1";
                     cr_message := "good morning"; cr_chat_history := [] |}).
  destruct (chat_endpoint request []) as [[body|status detail] t'] eqn:Hc;
    [|vm_compute in Hc; discriminate].
  destruct (@chat_answer_names_tool_and_context E request [] t' body Hc)
    as (i & ctx & Hall).
  by exists i, ctx, body.
Defined.

Lemma sample_users_cases (uid : string) (p : UserProfile) :
  SAMPLE_USERS !! uid = Some p ->
  p = student123 \/ p = student456 \/ p = student789.
Proof.
  unfold SAMPLE_USERS. intros Hl.
  apply lookup_insert_Some in Hl as [[_ <-] | [_ Hl]]; [by auto|].
  apply lookup_insert_Some in Hl as [[_ <-] | [_ Hl]]; [by auto|].
  apply lookup_insert_Some in Hl as [[_ <-] | [_ Hl]]; [by auto|].
  by rewrite lookup_empty in Hl.
Qed.

(** Every record the sample store can give validates as [UserInfo]. *)
Lemma retrieve_state_sample `{Env} (state : WorkflowState) (t : list event) :
  (forall u, db_get_user_profile u = Database_get_user_profile u) ->
  exists ui, retrieve_state state t = (Ok (set_user_info state (Some ui)), t).
Proof.
  intros Hdb. unfold retrieve_state, bind, lift, ret.
  rewrite Hdb, Database_get_user_profile_default.
  destruct (SAMPLE_USERS !! st_user_id state) as [p|] eqn:Hl; simpl default.
  - destruct (sample_users_cases _ _ Hl) as [-> | [-> | ->]];
      eexists; vm_compute new_UserInfo; reflexivity.
  - eexists; vm_compute new_UserInfo; reflexivity.
Qed.

(** X22: over the sample store, a valid chat request is always answered
    with status 200 when no tool service answers with status 200 (the
    services are down, time out or fail), whoever the user is and
    whatever the model does; the answer has no data. *)
Theorem chat_always_answers `{Env} (uid session_id message : string)
    (chat_history : list Message) (t : list event) :
  (forall u, db_get_user_profile u = Database_get_user_profile u) ->
  (forall t0 url req timeout resp,
     client_post t0 url req timeout = Ok resp -> status_code resp <> 200%Z) ->
  uid <> "" -> session_id <> "" -> message <> "" ->
  exists body t',
    post_chat uid session_id message chat_history t = (HTTP_200 body, t')
    /\ data body = None.
Proof.
  intros Hdb Hno Hu Hs Hm. unfold post_chat, new_ChatRequest.
  assert (forall s, s <> "" -> min_length_1 s = true) as Hmin.
  { intros s Hne. unfold min_length_1. apply negb_true_iff.
    by apply String.eqb_neq. }
  rewrite !Hmin by done. simpl andb. cbv iota.
  unfold chat_endpoint, chat_endpoint_try. cbn [cr_user_id cr_session_id
    cr_message cr_chat_history].
  set (state0 := initial_state uid session_id message chat_history).
  change (graph_ainvoke state0)
    with (run_from (6 + 19) node_retrieve_state state0).
  unfold bind at 1. rewrite run_is_pipeline.
  destruct (retrieve_state_sample state0 t Hdb) as [ui Hr].
  destruct (pipeline_without_tools state0 _ t t Hr Hno)
    as (result & t1 & Hp & [r Hf] & Ha & _).
  rewrite Hp, Hf. unfold bind, lift.
  destruct Ha as [Ha | [msg Ha]]; rewrite Ha.
  - simpl. by eexists _, _.
  - rewrite failure_truthy.
    assert (value_get (failure msg) "data" VNone = Ok VNone) as ->
      by reflexivity.
    simpl. by eexists _, _.
Qed.

Lemma chat_always_answers_witness :
  let E := scripted_env (Ok "flashcard_generator") (Raise "timed out")
             (fun _ => Ok (VDict ∅)) in
  exists body t',
    post_chat "nonexistent-user" "test-error-001" "Can you help me?" [] []
    = (HTTP_200 body, t')
    /\ data body = None.
Proof.
  intros E.
  apply (@chat_always_answers E).
  - intros u. reflexivity.
  - intros t0 url req timeout resp. simpl. discriminate.
  - discriminate.
  - discriminate.
  - discriminate.
Defined.

(** *** A user the store does not know *)

Section OtherUser.
Context `{Env}.
Variable u : string.

Lemma retrieve_state_user_id (state : WorkflowState) (t : list event) :
  db_get_user_profile u = db_get_user_profile (st_user_id state) ->
  retrieve_state (set_user_id state u) t
  = with_user_id u (retrieve_state state t).
Proof.
  intros Hdb. unfold retrieve_state, bind, lift, ret, with_user_id.
  cbn [st_user_id set_user_id]. rewrite Hdb.
  destruct (db_get_user_profile (st_user_id state)) as [[p|]|e]; try done.
  by destruct (new_UserInfo _ _ _ _ _ _).
Qed.

Lemma retrieve_state_keeps_user_id (state state1 : WorkflowState)
    (t t1 : list event) :
  retrieve_state state t = (Ok state1, t1) ->
  st_user_id state1 = st_user_id state.
Proof.
  unfold retrieve_state, bind, lift, ret.
  destruct (db_get_user_profile (st_user_id state)) as [[p|]|e]; [| |done].
  - destruct (new_UserInfo _ _ _ _ _ _); [|done]. by intros [= <- _].
  - by intros [= <- _].
Qed.

Lemma analyze_educational_context_user_id (state : WorkflowState)
    (t : list event) :
  db_get_user_profile u = db_get_user_profile (st_user_id state) ->
  analyze_educational_context (set_user_id state u) t
  = with_user_id u (analyze_educational_context state t).
Proof.
  intros Hdb. rewrite !analyze_educational_context_infer.
  unfold with_user_id, infer. cbn [st_user_id st_message st_user_info set_user_id].
  by rewrite Hdb.
Qed.

Lemma format_prompt_user_id (tpl : PromptTemplate) (state : WorkflowState)
    (t : list event) :
  format_prompt tpl (set_user_id state u) t = format_prompt tpl state t.
Proof. reflexivity. Qed.

Lemma analyze_intent_user_id (state : WorkflowState) (t : list event) :
  analyze_intent (set_user_id state u) t
  = with_user_id u (analyze_intent state t).
Proof.
  unfold analyze_intent, try_except, analyze_intent_try, bind, with_user_id.
  rewrite format_prompt_user_id.
  destruct (format_prompt INTENT_ANALYSIS_PROMPT state t) as [[p|e] t1]; [|done].
  unfold ainvoke. destruct (llm_ainvoke t1 p) as [reply|e]; [|done].
  by destruct (first_keyword intent_map _).
Qed.

Lemma extract_parameters_user_id (tool_name : string) (state : WorkflowState)
    (t : list event) :
  _extract_parameters tool_name (set_user_id state u) t
  = with_user_id u (_extract_parameters tool_name state t).
Proof.
  unfold _extract_parameters, try_except, _extract_parameters_try, bind, lift,
    with_user_id.
  destruct (getitem PARAMETER_EXTRACTION_PROMPTS tool_name) as [tpl|e0]; [|done].
  rewrite format_prompt_user_id.
  destruct (format_prompt tpl state t) as [[p|e] t1]; [|done].
  unfold ainvoke. destruct (llm_ainvoke t1 p) as [reply|e]; [|done].
  by destruct (json_loads _).
Qed.

Lemma dispatch_to_api_user_id (state : WorkflowState) (t : list event) :
  dispatch_to_api (set_user_id state u) t
  = with_user_id u (dispatch_to_api state t).
Proof.
  dispatch_unfold. unfold with_user_id.
  cbn [st_intent st_user_info st_chat_history st_extracted_parameters
       st_educational_context set_user_id].
  destruct (bool_decide _); [done|].
  destruct (tool_mapping (st_intent state)) as [api_url|]; [|done].
  destruct (negb (truthy (VStr api_url))); [done|].
  destruct (st_intent state) as [i|]; cbv beta iota; [|done].
  destruct (new_APIRequest _ _ _ _ _) as [req|e0]; cbv beta iota; [|done].
  destruct (client_post _ _ _ _) as [resp|e1]; cbv beta iota; [|done].
  destruct (status_code resp =? 200)%Z; cbv beta iota; [|done].
  by destruct (json resp).
Qed.

Lemma format_response_user_id (state : WorkflowState) (t : list event) :
  lift (format_response (set_user_id state u)) t
  = with_user_id u (lift (format_response state) t).
Proof.
  unfold lift, format_response, with_user_id.
  cbn [st_intent st_api_response st_educational_context set_user_id].
  destruct (bool_decide _); [done|].
  destruct (truthy (st_api_response state)); [|done].
  destruct (value_get (st_api_response state) "success" VNone) as [v|e]; [|done].
  destruct (truthy v).
  - destruct (value_getitem _ _); [|done].
    destruct (st_intent state); [|done].
    by destruct (st_educational_context state).
  - by destruct (value_get _ "error" _).
Qed.

Lemma bind_user_id (f f' : M WorkflowState)
    (g g' : WorkflowState -> M WorkflowState) (t : list event) :
  f' t = with_user_id u (f t) ->
  (forall s t1, f t = (Ok s, t1) ->
     g' (set_user_id s u) t1 = with_user_id u (g s t1)) ->
  bind f' g' t = with_user_id u (bind f g t).
Proof.
  intros Hf Hg. unfold bind. rewrite Hf.
  destruct (f t) as [[s|e] t1]; [|done]. cbn [with_user_id]. by apply Hg.
Qed.

Lemma pipeline_user_id (state : WorkflowState) (t : list event) :
  db_get_user_profile u = db_get_user_profile (st_user_id state) ->
  pipeline (set_user_id state u) t = with_user_id u (pipeline state t).
Proof.
  intros Hdb. unfold pipeline.
  apply bind_user_id; [by apply retrieve_state_user_id|].
  intros s1 t1 Hr. apply retrieve_state_keeps_user_id in Hr.
  rewrite <- Hr in Hdb.
  apply bind_user_id; [by apply analyze_educational_context_user_id|].
  intros s2 t2 _.
  apply bind_user_id; [apply analyze_intent_user_id|].
  intros s3 t3 _. cbn [st_intent set_user_id].
  assert (forall tool_name,
            bind (_extract_parameters tool_name (set_user_id s3 u))
              (fun state4 => bind (dispatch_to_api state4)
                               (fun state5 => lift (format_response state5))) t3
            = with_user_id u
                (bind (_extract_parameters tool_name s3)
                   (fun state4 => bind (dispatch_to_api state4)
                                    (fun state5 => lift (format_response state5)))
                   t3)) as Hex.
  { intros tool_name.
    apply bind_user_id; [apply extract_parameters_user_id|].
    intros s4 t4 _.
    apply bind_user_id; [apply dispatch_to_api_user_id|].
    intros s5 t5 _. apply format_response_user_id. }
  destruct (st_intent s3) as [[]|]; cbn [extract_params_for];
    first [apply Hex | apply format_response_user_id].
Qed.
End OtherUser.

(** X23: over the sample store, a chat request from a user id that is not
    in the store is answered exactly as the same request from
    "student123", with the same calls of the model and the same POST:
    the unknown user is served with the profile of Charlie. *)
Theorem unknown_user_is_served_as_student123 `{Env}
    (uid session_id message : string) (chat_history : list Message)
    (t : list event) :
  (forall u, db_get_user_profile u = Database_get_user_profile u) ->
  SAMPLE_USERS !! uid = None -> uid <> "" ->
  post_chat uid session_id message chat_history t
  = post_chat "student123" session_id message chat_history t.
Proof.
  intros Hdb Habs Hne. unfold post_chat, new_ChatRequest.
  assert (min_length_1 uid = true) as ->.
  { unfold min_length_1. apply negb_true_iff. by apply String.eqb_neq. }
  change (min_length_1 "student123") with true.
  destruct (true && min_length_1 session_id && min_length_1 message); [|done].
  unfold chat_endpoint, chat_endpoint_try.
  cbn [cr_user_id cr_session_id cr_message cr_chat_history].
  change (initial_state uid session_id message chat_history)
    with (set_user_id
            (initial_state "student123" session_id message chat_history) uid).
  set (state0 := initial_state "student123" session_id message chat_history).
  change (graph_ainvoke (set_user_id state0 uid))
    with (run_from (6 + 19) node_retrieve_state (set_user_id state0 uid)).
  change (graph_ainvoke state0)
    with (run_from (6 + 19) node_retrieve_state state0).
  unfold bind at 1 3. rewrite !run_is_pipeline.
  rewrite pipeline_user_id.
  - by destruct (pipeline state0 t) as [[result|e] t1].
  - rewrite !Hdb, !Database_get_user_profile_default, Habs.
    by vm_compute (SAMPLE_USERS !! st_user_id state0).
Qed.

Lemma unknown_user_is_served_as_student123_witness :
  let E := scripted_env (Ok "quiz_generator") (Raise "timed out")
             (fun _ => Ok (VDict ∅)) in
  post_chat "nonexistent-user" "test-error-001" "Can you help me?" [] []
  = post_chat "student123" "test-error-001" "Can you help me?" [] [].
Proof.
  intros E. apply (@unknown_user_is_served_as_student123 E).
  - intros u. reflexivity.
  - vm_compute. reflexivity.
  - discriminate.
Defined.

(** ** The tool services *)

Lemma flashcard_difficulty_map_values (key : string) :
  default "medium" (FlashcardServer.difficulty_map !! key)
  ∈ ["easy"; "medium"; "hard"].
Proof.
  destruct (FlashcardServer.difficulty_map !! key) as [x|] eqn:Hl;
    [|set_solver].
  unfold FlashcardServer.difficulty_map in Hl.
  repeat (apply lookup_insert_Some in Hl as [[_ <-] | [_ Hl]];
          [simpl; set_solver|]).
  by rewrite lookup_empty in Hl.
Qed.

Lemma quiz_difficulty_map_values (key : string) :
  default "medium" (QuizServer.difficulty_map !! key)
  ∈ ["easy"; "medium"; "hard"].
Proof.
  destruct (QuizServer.difficulty_map !! key) as [x|] eqn:Hl; [|set_solver].
  unfold QuizServer.difficulty_map in Hl.
  repeat (apply lookup_insert_Some in Hl as [[_ <-] | [_ Hl]];
          [simpl; set_solver|]).
  by rewrite lookup_empty in Hl.
Qed.

Lemma quiz_type_map_values (key : string) :
  default "practice" (QuizServer.type_map !! key)
  ∈ ["multiple_choice"; "true_false"; "practice"].
Proof.
  destruct (QuizServer.type_map !! key) as [x|] eqn:Hl; [|set_solver].
  unfold QuizServer.type_map in Hl.
  repeat (apply lookup_insert_Some in Hl as [[_ <-] | [_ Hl]];
          [simpl; set_solver|]).
  by rewrite lookup_empty in Hl.
Qed.

Lemma concept_depth_map_values (key : string) :
  default "intermediate" (ConceptServer.depth_map !! key)
  ∈ ConceptServer.depth_order.
Proof.
  unfold ConceptServer.depth_order.
  destruct (ConceptServer.depth_map !! key) as [x|] eqn:Hl; [|set_solver].
  unfold ConceptServer.depth_map in Hl.
  repeat (apply lookup_insert_Some in Hl as [[_ <-] | [_ Hl]];
          [simpl; set_solver|]).
  by rewrite lookup_empty in Hl.
Qed.

(** X24: the number of flashcards has an upper clamp only.  For every
    requested count of any type and every context the adapted count is at
    most 20, at most 3 for an anxious, confused or tired student, and at
    most the requested count plus 2; there is no lower clamp: a requested
    count of at most 3, zero and negative counts included, is returned
    as it is unless the student is focused with mastery 7 or more. *)
Theorem flashcard_count_bounds (int_of_str : string -> option Z)
    (original_count : value) (context : ToolServer.EducationalContext) :
  let requested := ToolServer.coerce_count int_of_str 5 original_count in
  let adapted :=
    FlashcardServer._adapt_flashcard_count int_of_str original_count context in
  (adapted <= 20)%Z
  /\ (adapted <= requested + 2)%Z
  /\ (ToolServer.str_in (ToolServer.emotional_state context)
        ["anxious"; "confused"; "tired"] = true -> (adapted <= 3)%Z)
  /\ ((requested <= 3)%Z ->
      ~ (ToolServer.emotional_state context = "focused"
         /\ (7 <= ToolServer.mastery_level context)%Z) ->
      adapted = requested).
Proof.
  cbv zeta. unfold FlashcardServer._adapt_flashcard_count.
  set (n := ToolServer.coerce_count int_of_str 5 original_count).
  destruct (ToolServer.str_in _ _) eqn:Hs.
  - repeat split; try lia.
  - destruct (String.eqb_spec (ToolServer.emotional_state context) "focused")
      as [Hf|Hf]; simpl andb.
    + destruct (Z.leb_spec 7 (ToolServer.mastery_level context)).
      * repeat split; try lia; try done. intros _ Hn. destruct Hn. by split.
      * repeat split; try lia; done.
    + repeat split; try lia; done.
Qed.

(** X25: the flashcard difficulty is always one of easy, medium and hard
    when the function returns, and easy for an anxious or confused
    student whatever was requested; it raises exactly for a requested
    difficulty that is true and not a string (a number, a list). *)
Theorem flashcard_difficulty_closed (original_difficulty : value)
    (context : ToolServer.EducationalContext) :
  (forall r, FlashcardServer._adapt_difficulty original_difficulty context = Ok r ->
     r ∈ ["easy"; "medium"; "hard"])
  /\ (forall r, FlashcardServer._adapt_difficulty original_difficulty context = Ok r ->
        ToolServer.str_in (ToolServer.emotional_state context)
          ["anxious"; "confused"] = true -> r = "easy")
  /\ (is_ok (FlashcardServer._adapt_difficulty original_difficulty context) = false
      <-> truthy original_difficulty = true
          /\ forall s, original_difficulty <> VStr s).
Proof.
  unfold FlashcardServer._adapt_difficulty.
  assert (forall key r,
            (if ToolServer.str_in (ToolServer.emotional_state context)
                  ["anxious"; "confused"]
             then Ok "easy"
             else if (8 <=? ToolServer.mastery_level context)%Z
                     && String.eqb (ToolServer.emotional_state context) "focused"
                  then Ok "hard"
                  else Ok (default "medium" (FlashcardServer.difficulty_map !! key)))
            = Ok r ->
            r ∈ ["easy"; "medium"; "hard"]
            /\ (ToolServer.str_in (ToolServer.emotional_state context)
                  ["anxious"; "confused"] = true -> r = "easy")) as Hbody.
  { intros key r. destruct (ToolServer.str_in _ _).
    - intros [= <-]. split; [set_solver | done].
    - destruct (_ && _); intros [= <-]; (split; [|done]).
      + set_solver.
      + apply flashcard_difficulty_map_values. }
  destruct (truthy original_difficulty) eqn:Htr.
  - destruct original_difficulty as [| b | z | s | l | d];
      try (split; [done|]; split; [done|];
           split; [intros _; by split | done]).
    split; [intros r Hr; by apply (Hbody _ _ Hr)|].
    split; [intros r Hr; by apply (Hbody _ _ Hr)|].
    split.
    + destruct (ToolServer.str_in _ _); [done|]. by destruct (_ && _).
    + intros [_ Hn]. by destruct (Hn s).
  - split; [intros r Hr; by apply (Hbody _ _ Hr)|].
    split; [intros r Hr; by apply (Hbody _ _ Hr)|].
    split.
    + destruct (ToolServer.str_in _ _); [done|]. by destruct (_ && _).
    + by intros [? _].
Qed.

(** X26: the quiz difficulty is one of easy, medium and hard for every
    requested value of any type and every context; it is easy for an
    anxious or confused student and for every mastery of at most 3, and
    hard for a mastery of 8 or more unless the student is anxious or
    confused: the request counts for the levels between only. *)
Theorem quiz_difficulty_closed (original_difficulty : value)
    (context : ToolServer.EducationalContext) :
  let adapted := QuizServer._adapt_difficulty original_difficulty context in
  adapted ∈ ["easy"; "medium"; "hard"]
  /\ (ToolServer.str_in (ToolServer.emotional_state context)
        ["anxious"; "confused"] = true -> adapted = "easy")
  /\ ((ToolServer.mastery_level context <= 3)%Z -> adapted = "easy")
  /\ ((8 <= ToolServer.mastery_level context)%Z ->
      ToolServer.str_in (ToolServer.emotional_state context)
        ["anxious"; "confused"] = false -> adapted = "hard").
Proof.
  cbv zeta. unfold QuizServer._adapt_difficulty.
  set (mapped := default "medium" (QuizServer.difficulty_map !! _)).
  assert (mapped ∈ ["easy"; "medium"; "hard"]) as Hm
    by apply quiz_difficulty_map_values.
  destruct (ToolServer.str_in _ _).
  { split; [set_solver|]. split; [done|]. split; [done|]. done. }
  destruct (String.eqb _ "focused"); simpl andb;
    destruct (Z.leb_spec 7 (ToolServer.mastery_level context));
    destruct (Z.leb_spec (ToolServer.mastery_level context) 3);
    destruct (Z.leb_spec 8 (ToolServer.mastery_level context));
    try lia;
    (split; [set_solver|]; split; [done|]; split; [intros; lia || done|];
     intros; lia || done).
Qed.

(** X27: the question type of a quiz is one of multiple_choice,
    true_false and practice for every requested value and context, never
    fill_blank; it is multiple_choice for an anxious or confused
    student. *)
Theorem quiz_question_type_closed (original_type : value)
    (context : ToolServer.EducationalContext) :
  let adapted := QuizServer._adapt_question_type original_type context in
  adapted ∈ ["multiple_choice"; "true_false"; "practice"]
  /\ adapted <> "fill_blank"
  /\ (ToolServer.str_in (ToolServer.emotional_state context)
        ["anxious"; "confused"] = true -> adapted = "multiple_choice").
Proof.
  cbv zeta.
  assert (QuizServer._adapt_question_type original_type context
          ∈ ["multiple_choice"; "true_false"; "practice"]) as Hin.
  { unfold QuizServer._adapt_question_type.
    destruct (ToolServer.str_in _ _); [set_solver|].
    destruct (String.eqb _ "socratic"); [set_solver|].
    apply quiz_type_map_values. }
  split; [exact Hin|]. split.
  - intros Heq. rewrite Heq in Hin. set_solver.
  - unfold QuizServer._adapt_question_type. by intros ->.
Qed.

(** X28: the number of quiz questions has an upper clamp only: at most
    20 for every request and context, at most 5 for an anxious or tired
    student, at most 15 for everyone who is not focused with mastery 7 or
    more (a confused student included), and never more than the requested
    count plus 5. *)
Theorem quiz_count_bounds (int_of_str : string -> option Z)
    (original_count : value) (context : ToolServer.EducationalContext) :
  let requested := ToolServer.coerce_count int_of_str 10 original_count in
  let adapted :=
    QuizServer._adapt_question_count int_of_str original_count context in
  (adapted <= 20)%Z
  /\ (adapted <= requested + 5)%Z
  /\ (ToolServer.str_in (ToolServer.emotional_state context)
        ["anxious"; "tired"] = true -> (adapted <= 5)%Z)
  /\ (~ (ToolServer.emotional_state context = "focused"
         /\ (7 <= ToolServer.mastery_level context)%Z) ->
      (adapted <= 15)%Z /\ (adapted <= requested)%Z).
Proof.
  cbv zeta. unfold QuizServer._adapt_question_count.
  set (n := ToolServer.coerce_count int_of_str 10 original_count).
  destruct (ToolServer.str_in _ _) eqn:Hs.
  - split; [lia|]. split; [lia|]. split; [intros _; lia|]. intros _. lia.
  - destruct (String.eqb_spec (ToolServer.emotional_state context) "focused")
      as [Hf|Hf]; simpl andb.
    + destruct (Z.leb_spec 7 (ToolServer.mastery_level context)).
      * split; [lia|]. split; [lia|]. split; [done|].
        intros Hn. destruct Hn. by split.
      * split; [lia|]. split; [lia|]. split; [done|]. intros _. lia.
    + split; [lia|]. split; [lia|]. split; [done|]. intros _. lia.
Qed.

(** X29: the depth of an explanation is always one of basic,
    intermediate, advanced and comprehensive: [_adapt_depth] never raises,
    whatever is requested; it is basic for every mastery of at most 3 and
    never basic for a mastery of 8 or more. *)
Theorem concept_depth_closed (requested_depth : value)
    (context : ToolServer.EducationalContext) :
  exists adapted,
    ConceptServer._adapt_depth requested_depth context = Ok adapted
    /\ adapted ∈ ConceptServer.depth_order
    /\ ((ToolServer.mastery_level context <= 3)%Z -> adapted = "basic")
    /\ ((8 <= ToolServer.mastery_level context)%Z -> adapted <> "basic").
Proof.
  unfold ConceptServer._adapt_depth.
  set (depth := default "intermediate" (ConceptServer.depth_map !! _)).
  assert (depth ∈ ConceptServer.depth_order) as Hd
    by apply concept_depth_map_values.
  unfold ConceptServer.depth_order in Hd.
  assert (depth = "basic" \/ depth = "intermediate" \/ depth = "advanced"
          \/ depth = "comprehensive") as Hcases by set_solver.
  clear Hd. clearbody depth.
  destruct (ToolServer.str_in (ToolServer.emotional_state context) _);
    destruct (String.eqb (ToolServer.emotional_state context) "focused");
    destruct (Z.leb_spec 7 (ToolServer.mastery_level context));
    destruct (Z.leb_spec (ToolServer.mastery_level context) 3);
    destruct (Z.leb_spec 8 (ToolServer.mastery_level context));
    try lia;
    destruct Hcases as [-> | [-> | [-> | ->]]];
    (eexists; split; [vm_compute; reflexivity|];
     split; [unfold ConceptServer.depth_order; set_solver|];
     split; intros; first [lia | done]).
Qed.

(** ** The failure that is not recovered *)

(** X30: the profile is the one thing the workflow cannot do without.
    When the lookup of the profile raises, or the record it gives does not
    validate as [UserInfo] (an empty field, a summary of the emotional
    state naming none of focused, anxious, confused, tired, motivated),
    [chat_endpoint] answers with status 500 and the text of the
    exception, and neither the model nor a tool service is called. *)
Theorem chat_fails_without_profile `{Env} (request : ChatRequest)
    (t : list event) (e : string) :
  db_get_user_profile (cr_user_id request) = Raise e
  \/ (exists p,
        db_get_user_profile (cr_user_id request) = Ok (Some p)
        /\ new_UserInfo (user_id p) (name p) (grade_level p)
             (learning_style_summary p) (emotional_state_summary p)
             (mastery_level_summary p) = Raise e) ->
  chat_endpoint request t
  = (HTTPException 500 ("Internal server error: " +:+ e), t).
Proof.
  intros Hfail. unfold chat_endpoint, chat_endpoint_try.
  set (state0 := initial_state _ _ _ _).
  change (graph_ainvoke state0)
    with (run_from (6 + 19) node_retrieve_state state0).
  unfold bind at 1. rewrite run_is_pipeline.
  assert (retrieve_state state0 t = (Raise e, t)) as Hr.
  { unfold retrieve_state, bind, lift, ret.
    change (st_user_id state0) with (cr_user_id request).
    destruct Hfail as [-> | (p & -> & Hv)]; [done|]. by rewrite Hv. }
  unfold pipeline. unfold bind at 1. by rewrite Hr.
Qed.

Lemma chat_fails_without_profile_witness :
  let E := scripted_env_db
             (Ok (Some {| user_id := "student000"; name := "Dana";
                          grade_level := "9";
                          learning_style_summary := "Reads a lot";
                          emotional_state_summary := "Curious and calm";
                          mastery_level_summary := "Level 5";
                          preferred_teaching_style := None;
                          current_emotional_state := None;
                          current_mastery_level := None |}))
             (Ok "quiz_generator") in
  chat_endpoint {| cr_user_id := "student000"; cr_session_id := "s1";
                   cr_message := "Quiz me"; cr_chat_history := [] |} []
  = (HTTPException 500
       ("Internal server error: "
        +:+ "Emotional state should contain one of ['focused', 'anxious', 'confused', 'tired', 'motivated']"),
     []).
Proof.
  intros E. apply (@chat_fails_without_profile E).
  right. eexists. split; [reflexivity|]. vm_compute. reflexivity.
Defined.
